(** * search-service: index synchronisation and query compilation

    A shallow embedding of the two service classes of the search service
    ([ElasticsearchService], [MessageQueueService]), of the request schema
    of [SearchController] and of the shared types, followed by the
    properties of the specification that concern them.

    Conventions of the embedding:
    - a value that may be [undefined] in the source is an [option];
    - a JavaScript [number] that only travels through comparisons is a
      rational ([Q]): a JSON body carries finite numbers only;
    - strings are [string]s of code units; the white space recognised by
      [String.prototype.trim] is modelled on the code units below 128;
    - [async] methods are computations in a state-and-exception monad [M]
      over a [World] made of the engine's store, the log, the operations
      sent on the broker channel and the clock. *)

From Stdlib Require Import QArith Ascii String.
From stdpp Require Import gmap strings list fin_maps.

Open Scope string_scope.
Open Scope list_scope.

(* ===================================================================== *)
(** ** JavaScript values                                                  *)
(* ===================================================================== *)

Module JS.

(** Truthiness of a string: every string but the empty one. *)
Definition truthy (s : string) : bool :=
  match s with
  | EmptyString => false
  | String _ _ => true
  end.

(** Truthiness of a possibly undefined string ([if (x)], [x && ...]). *)
Definition truthy_opt (o : option string) : bool :=
  match o with
  | Some s => truthy s
  | None => false
  end.

(** [a || b] on a possibly undefined string. *)
Definition or_else (o : option string) (d : string) : string :=
  match o with
  | Some s => if truthy s then s else d
  | None => d
  end.

(** [a || []] on a possibly undefined array (every array is truthy). *)
Definition or_empty {A} (o : option (list A)) : list A :=
  match o with
  | Some l => l
  | None => []
  end.

(** White space and line terminators: TAB, LF, VT, FF, CR, SPACE. *)
Definition is_white_space (c : ascii) : bool :=
  let n := nat_of_ascii c in
  (Nat.eqb n 9 || Nat.eqb n 10 || Nat.eqb n 11 || Nat.eqb n 12
   || Nat.eqb n 13 || Nat.eqb n 32)%bool.

Fixpoint trimStart (s : string) : string :=
  match s with
  | EmptyString => EmptyString
  | String c r => if is_white_space c then trimStart r else s
  end.

Fixpoint trimEnd (s : string) : string :=
  match s with
  | EmptyString => EmptyString
  | String c r =>
      match trimEnd r with
      | EmptyString => if is_white_space c then EmptyString
                       else String c EmptyString
      | String c' r' => String c (String c' r')
      end
  end.

(** [String.prototype.trim]. *)
Definition trim (s : string) : string := trimEnd (trimStart s).

(** Some code unit of the string is not white space. *)
Fixpoint has_visible (s : string) : bool :=
  match s with
  | EmptyString => false
  | String c r => (negb (is_white_space c) || has_visible r)%bool
  end.

(** [Array.prototype.includes] on an array of strings. *)
Definition includes (l : list string) (x : string) : bool :=
  bool_decide (x ∈ l).

(** [String.prototype.substring(start)]: the string from index [start]. *)
Fixpoint substring (start : nat) (s : string) : string :=
  match start, s with
  | O, _ => s
  | S n, String _ r => substring n r
  | S _, EmptyString => EmptyString
  end.

(** [String.prototype.startsWith]. *)
Definition startsWith (s searchString : string) : bool :=
  String.prefix searchString s.

End JS.

(* ===================================================================== *)
(** ** Shared types ([types])                                             *)
(* ===================================================================== *)

(** A scalar stored in the open [metadata] object. *)
Inductive MetaValue :=
| MNum (q : Q)
| MStr (s : string)
| MBool (b : bool).

(** [SearchDocument], [WorkItemDocument] and the user document of the
    consumer, as one object type: the fields a kind does not carry are
    [None], as are the fields whose source value was [undefined]. *)
Record Document := mkDocument {
  doc_id : string;
  doc_type : string;
  doc_tenantId : string;
  doc_title : string;
  doc_content : string;
  doc_tags : list string;
  doc_metadata : list (string * option MetaValue);
  doc_createdAt : string;
  doc_updatedAt : string;
  doc_createdBy : option string;
  doc_permissions : list string;
  (* WorkItemDocument *)
  doc_workItemType : option string;
  doc_status : option string;
  doc_priority : option string;
  doc_assignedTo : option string;
  doc_parentId : option string;
  doc_dueDate : option string;
  doc_progress : option Q;
  doc_dependencies : option (list string);
  doc_lineage : option (list string);
  (* user document *)
  doc_email : option string;
  doc_role : option string;
  doc_department : option string
}.

(** The [Partial<SearchDocument>] that callers pass to [updateDocument]. *)
Record DocumentUpdate := mkDocumentUpdate {
  upd_status : option string;
  upd_updatedAt : option string
}.

Inductive SortOrder := asc | desc.

Record DateRange := mkDateRange {
  dr_field : string;
  dr_from : option string;
  dr_to : option string
}.

Record Filters := mkFilters {
  f_type : option (list string);
  f_workItemType : option (list string);
  f_status : option (list string);
  f_priority : option (list string);
  f_assignedTo : option (list string);
  f_tags : option (list string);
  f_dateRange : option DateRange
}.

Record SortSpec := mkSortSpec {
  sort_field : string;
  sort_order : SortOrder
}.

Record Pagination := mkPagination {
  pg_from : Q;
  pg_size : Q
}.

Record SearchQuery := mkSearchQuery {
  q_query : string;
  q_filters : option Filters;
  q_sort : option (list SortSpec);
  q_pagination : option Pagination;
  q_tenantId : string;
  q_userId : string;
  q_userRole : string
}.

(** The work-item snapshot carried by [work_item.created] and
    [work_item.updated] (the source reads it as [any]). *)
Record WorkItem := mkWorkItem {
  wi_id : string;
  wi_tenant_id : string;
  wi_title : string;
  wi_description : option string;
  wi_type : string;
  wi_status : string;
  wi_priority : string;
  wi_assigned_to : option string;
  wi_parent_id : option string;
  wi_tags : option (list string);
  wi_dependencies : option (list string);
  wi_lineage : option (list string);
  wi_progress : option Q;
  wi_created_at : string;
  wi_updated_at : string;
  wi_due_date : option string;
  wi_created_by : option string;
  wi_estimated_hours : option Q;
  wi_actual_hours : option Q;
  wi_completion_date : option string
}.

(** The user snapshot carried by [user.created] and [user.updated]. *)
Record User := mkUser {
  usr_id : string;
  usr_tenant_id : string;
  usr_name : string;
  usr_email : string;
  usr_role : string;
  usr_department : option string;
  usr_tags : option (list string);
  usr_created_at : string;
  usr_updated_at : option string;
  usr_created_by : option string;
  usr_last_login : option string;
  usr_is_active : option bool
}.

(* ===================================================================== *)
(** ** Results, the world and the monad of [async] methods                *)
(* ===================================================================== *)

(** What a [throw] carries. *)
Inductive Error :=
| SyntaxError            (* JSON.parse on an unparseable payload *)
| TypeError              (* property read on undefined *)
| MissingParameter       (* engine client called without a document id *)
| NotFound.              (* engine answered 404 *)

Inductive Result (A : Type) :=
| Ok (a : A)
| Err (e : Error).
Arguments Ok {A} a.
Arguments Err {A} e.

Inductive LogLevel := LDebug | LInfo | LWarn | LError.

Record LogEntry := mkLog {
  log_level : LogLevel;
  log_message : string
}.

(** A message as the broker delivers it. [msg_content] is the outcome of
    [JSON.parse(msg.content.toString())]: [None] when it throws. *)
Record Message (P : Type) := mkMessage {
  msg_tag : nat;
  msg_routingKey : string;
  msg_content : option P
}.
Arguments mkMessage {P} _ _ _.
Arguments msg_tag {P} _.
Arguments msg_routingKey {P} _.
Arguments msg_content {P} _.

(** What the consumer may send on the channel for a delivery tag. *)
Inductive ChannelOp :=
| Ack (tag : nat)
| Nack (tag : nat) (requeue : bool).

(** The engine's store: documents by full index name and document id. *)
Record World := mkWorld {
  es : gmap (string * string) Document;
  logs : list LogEntry;
  channel : list ChannelOp;
  clock : string            (* what [new Date().toISOString()] yields *)
}.

Definition M (A : Type) : Type := World -> Result A * World.

Definition ret {A} (a : A) : M A := fun w => (Ok a, w).

Definition throw {A} (e : Error) : M A := fun w => (Err e, w).

Definition bind {A B} (m : M A) (k : A -> M B) : M B :=
  fun w =>
    match m w with
    | (Ok a, w') => k a w'
    | (Err e, w') => (Err e, w')
    end.

(** [try { body } catch (error) { handler }]. *)
Definition try_catch {A} (body : M A) (handler : Error -> M A) : M A :=
  fun w =>
    match body w with
    | (Ok a, w') => (Ok a, w')
    | (Err e, w') => handler e w'
    end.

Notation "x <- c1 ;; c2" := (bind c1 (fun x => c2))
  (at level 100, c1 at next level, right associativity).
Notation "c1 ;; c2" := (bind c1 (fun _ => c2))
  (at level 100, right associativity).

Definition set_es (s : gmap (string * string) Document) (w : World) : World :=
  mkWorld s (logs w) (channel w) (clock w).

Module logger.

Definition write (l : LogLevel) (m : string) : M unit :=
  fun w => (Ok tt, mkWorld (es w) (mkLog l m :: logs w) (channel w) (clock w)).

Definition debug := write LDebug.
Definition info := write LInfo.
Definition warn := write LWarn.
Definition error := write LError.

End logger.

(** [new Date().toISOString()]. *)
Definition Date_now : M string := fun w => (Ok (clock w), w).

(* ===================================================================== *)
(** ** The engine client ([@elastic/elasticsearch])                       *)
(* ===================================================================== *)

(** The three write calls of the engine client that the service uses,
    with the contract of the engine's document API: [index] creates or
    replaces the document stored under the id; [update] merges the partial
    document into the stored one and answers 404 when there is none;
    [delete] removes the stored document and answers 404 when there is
    none. The client raises every 4xx answer as an error. *)
Module client.

Definition merge (u : DocumentUpdate) (d : Document) : Document :=
  mkDocument (doc_id d) (doc_type d) (doc_tenantId d) (doc_title d)
    (doc_content d) (doc_tags d) (doc_metadata d) (doc_createdAt d)
    (default (doc_updatedAt d) (upd_updatedAt u))
    (doc_createdBy d) (doc_permissions d) (doc_workItemType d)
    (match upd_status u with Some s => Some s | None => doc_status d end)
    (doc_priority d) (doc_assignedTo d) (doc_parentId d) (doc_dueDate d)
    (doc_progress d) (doc_dependencies d) (doc_lineage d)
    (doc_email d) (doc_role d) (doc_department d).

Definition index (idx : string) (id : string) (body : Document) : M unit :=
  fun w => (Ok tt, set_es (<[(idx, id) := body]> (es w)) w).

Definition update (idx : string) (id : option string) (doc : DocumentUpdate)
  : M unit :=
  fun w =>
    match id with
    | None => (Err MissingParameter, w)
    | Some i =>
        match es w !! (idx, i) with
        | Some d => (Ok tt, set_es (<[(idx, i) := merge doc d]> (es w)) w)
        | None => (Err NotFound, w)
        end
    end.

Definition delete (idx : string) (id : option string) : M unit :=
  fun w =>
    match id with
    | None => (Err MissingParameter, w)
    | Some i =>
        match es w !! (idx, i) with
        | Some _ => (Ok tt, set_es (base.delete (idx, i) (es w)) w)
        | None => (Err NotFound, w)
        end
    end.

End client.

(* ===================================================================== *)
(** ** The compiled engine query                                          *)
(* ===================================================================== *)

(** A field of a [multi_match] with its weight: the engine's
    [field^boost] syntax, ['title^3'] being [mkBoost "title" 3]. *)
Record BoostedField := mkBoost {
  bf_field : string;
  bf_boost : Q
}.

Inductive Clause :=
| term (field value : string)
| terms (field : string) (values : list string)
| range (field : string) (gte lte : option string)
| multi_match (query : string) (fields : list BoostedField)
              (type fuzziness : string)
| match_all.

(** The request body handed to the engine: [query.bool.must],
    [query.bool.filter], [highlight.fields], [aggregations], [sort],
    [from] and [size]. *)
Record SearchBody := mkSearchBody {
  sb_must : list Clause;
  sb_filter : list Clause;
  sb_highlight : list string;
  sb_aggregations : list (string * string);
  sb_sort : list (string * SortOrder);
  sb_from : option Q;
  sb_size : Q
}.

(* ===================================================================== *)
(** ** What the engine answers to the read calls                          *)
(* ===================================================================== *)

(** One hit of a search response. *)
Record Hit := mkHit {
  hit_source : Document;
  hit_score : option Q;
  hit_highlight : option (list (string * list string))
}.

(** [hits.total]: a number, an object with a [value], or nothing. *)
Inductive HitsTotal :=
| total_number (n : Q)
| total_object (value : option Q)
| total_missing.

Record SearchResponse := mkSearchResponse {
  resp_hits : list Hit;
  resp_total : HitsTotal;
  resp_aggregations : option (list (string * list (string * Q)))
}.

(** A document of a [SearchResult]: the source with [_score] and
    [_highlights]. *)
Record ScoredDocument := mkScoredDocument {
  sd_document : Document;
  sd_score : option Q;
  sd_highlights : option (list (string * list string))
}.

Record SearchResult := mkSearchResult {
  res_documents : list ScoredDocument;
  res_total : Q;
  res_aggregations : option (list (string * list (string * Q)));
  res_executionTime : Q
}.

(** The body of the suggestion request. *)
Record SuggestBody := mkSuggestBody {
  sg_prefix : string;
  sg_field : string;
  sg_size : Q;
  sg_filter : list Clause;
  sg_hits_size : Q
}.

Record SuggestOption := mkSuggestOption {
  so_text : string;
  so_score : Q
}.

Record SuggestEntry := mkSuggestEntry {
  se_options : option (list SuggestOption)
}.

(** [response.suggest], with its [title_suggest] entries. *)
Record SuggestSection := mkSuggestSection {
  title_suggest : option (list SuggestEntry)
}.

Record SuggestResponse := mkSuggestResponse {
  resp_suggest : option SuggestSection
}.

(** One row of [cat.indices]. *)
Record CatIndex := mkCatIndex {
  cat_index : string;
  cat_docs_count : option string;
  cat_store_size : option string;
  cat_health : string
}.

(** [IndexStats]; [st_documentCount] is what [parseInt] returns, [None]
    standing for NaN. *)
Record IndexStats := mkIndexStats {
  st_name : string;
  st_documentCount : option Z;
  st_size : string;
  st_health : string;
  st_lastUpdated : string
}.

(** [Array.prototype.map] with an [async]-free callback that reads the
    world. *)
Fixpoint mapM {A B} (f : A -> M B) (l : list A) : M (list B) :=
  match l with
  | [] => ret []
  | a :: l' =>
      b <- f a ;;
      bs <- mapM f l' ;;
      ret (b :: bs)
  end.

(* ===================================================================== *)
(** ** [ElasticsearchService]                                             *)
(* ===================================================================== *)

Module ElasticsearchService.
Section Service.

(** [process.env.INDEX_PREFIX || 'htma']. *)
Variable indexPrefix : string.

Definition fullIndexName (indexName : string) : string :=
  indexPrefix +:+ "_" +:+ indexName.

Definition indexDocument (indexName : string) (document : Document)
  : M unit :=
  try_catch
    (client.index (fullIndexName indexName) (doc_id document) document ;;
     logger.debug "Document indexed")
    (fun error =>
       logger.error "Failed to index document" ;;
       throw error).

Definition updateDocument (indexName : string) (documentId : option string)
    (updates : DocumentUpdate) : M unit :=
  try_catch
    (now <- Date_now ;;
     client.update (fullIndexName indexName) documentId
       (mkDocumentUpdate (upd_status updates) (Some now)) ;;
     logger.debug "Document updated")
    (fun error =>
       logger.error "Failed to update document" ;;
       throw error).

Definition deleteDocument (indexName : string) (documentId : option string)
  : M unit :=
  try_catch
    (client.delete (fullIndexName indexName) documentId ;;
     logger.debug "Document deleted")
    (fun error =>
       logger.error "Failed to delete document" ;;
       throw error).

(** [filters.f && filters.f.length > 0] guarding the push of a [terms]. *)
Definition terms_filter (field : string) (values : option (list string))
  : list Clause :=
  match values with
  | Some (v :: vs) => [terms field (v :: vs)]
  | _ => []
  end.

Definition date_filter (dateRange : option DateRange) : list Clause :=
  match dateRange with
  | Some r =>
      [range (dr_field r)
         (if JS.truthy_opt (dr_from r) then dr_from r else None)
         (if JS.truthy_opt (dr_to r) then dr_to r else None)]
  | None => []
  end.

Definition buildSearchQuery (query : SearchQuery) : SearchBody :=
  (* Tenant isolation *)
  let filterClauses := [term "tenantId" (q_tenantId query)] in
  (* Main query *)
  let mustClauses :=
    if (JS.truthy (q_query query) && JS.truthy (JS.trim (q_query query)))%bool
    then [multi_match (q_query query)
            [mkBoost "title" 3; mkBoost "content" 2; mkBoost "tags" 1.5]
            "best_fields" "AUTO"]
    else [match_all] in
  (* Filters *)
  let filterClauses :=
    match q_filters query with
    | Some filters =>
        filterClauses
        ++ terms_filter "type" (f_type filters)
        ++ terms_filter "workItemType" (f_workItemType filters)
        ++ terms_filter "status" (f_status filters)
        ++ terms_filter "priority" (f_priority filters)
        ++ terms_filter "assignedTo" (f_assignedTo filters)
        ++ terms_filter "tags" (f_tags filters)
        ++ date_filter (f_dateRange filters)
    | None => filterClauses
    end in
  (* Sorting *)
  let sort :=
    match q_sort query with
    | Some (s :: ss) =>
        map (fun s => (sort_field s, sort_order s)) (s :: ss)
    | _ => [("_score", desc); ("updatedAt", desc)]
    end in
  (* Pagination *)
  let '(from, size) :=
    match q_pagination query with
    | Some pagination => (Some (pg_from pagination), pg_size pagination)
    | None => (None, 20%Q)
    end in
  mkSearchBody mustClauses filterClauses
    ["title"; "content"]
    [("types", "type"); ("statuses", "status"); ("priorities", "priority")]
    sort from size.

Definition allIndices : list string := ["work_items"; "users"; "templates"].

Definition getSearchIndices (types : option (list string)) : list string :=
  match types with
  | None | Some [] => map fullIndexName allIndices
  | Some types =>
      let indices :=
        (if JS.includes types "work_item" then [fullIndexName "work_items"]
         else [])
        ++ (if JS.includes types "user" then [fullIndexName "users"]
            else [])
        ++ (if JS.includes types "template" then [fullIndexName "templates"]
            else []) in
      match indices with
      | [] => map fullIndexName allIndices
      | _ :: _ => indices
      end
  end.

(** The engine request that [search] sends: the indices and the body. *)
Definition search_request (query : SearchQuery) : list string * SearchBody :=
  let searchBody := buildSearchQuery query in
  let indices := getSearchIndices (q_filters query ≫= f_type) in
  (indices, searchBody).

Definition calculatePermissions (workItem : WorkItem) : list string :=
  let permissions := ["tenant:" +:+ wi_tenant_id workItem] in
  let permissions :=
    match wi_assigned_to workItem with
    | Some a => if JS.truthy a then permissions ++ ["user:" +:+ a]
                else permissions
    | None => permissions
    end in
  let permissions :=
    match wi_created_by workItem with
    | Some c => if JS.truthy c then permissions ++ ["user:" +:+ c]
                else permissions
    | None => permissions
    end in
  (* Add role-based permissions *)
  permissions
  ++ ["role:CEO"; "role:President"; "role:VP"; "role:Director";
      "role:Manager"].

(** The [document] that [reindexWorkItem] builds from the snapshot. *)
Definition workItemDocument (workItem : WorkItem) : Document :=
  {| doc_id := wi_id workItem;
     doc_type := "work_item";
     doc_tenantId := wi_tenant_id workItem;
     doc_title := wi_title workItem;
     doc_content := JS.or_else (wi_description workItem) "";
     doc_workItemType := Some (wi_type workItem);
     doc_status := Some (wi_status workItem);
     doc_priority := Some (wi_priority workItem);
     doc_assignedTo := wi_assigned_to workItem;
     doc_parentId := wi_parent_id workItem;
     doc_tags := JS.or_empty (wi_tags workItem);
     doc_dependencies := Some (JS.or_empty (wi_dependencies workItem));
     doc_lineage := Some (JS.or_empty (wi_lineage workItem));
     doc_progress := wi_progress workItem;
     doc_createdAt := wi_created_at workItem;
     doc_updatedAt := wi_updated_at workItem;
     doc_dueDate := wi_due_date workItem;
     doc_createdBy := wi_created_by workItem;
     doc_permissions := calculatePermissions workItem;
     doc_metadata :=
       [("estimatedHours", MNum <$> wi_estimated_hours workItem);
        ("actualHours", MNum <$> wi_actual_hours workItem);
        ("completionDate", MStr <$> wi_completion_date workItem)];
     doc_email := None;
     doc_role := None;
     doc_department := None |}.

(** [workItem] is [eventData.workItem]: reading a property of it when it
    is [undefined] throws before anything reaches the engine. *)
Definition reindexWorkItem (workItem : option WorkItem) : M unit :=
  match workItem with
  | None => throw TypeError
  | Some workItem => indexDocument "work_items" (workItemDocument workItem)
  end.


(** [hits.total] as [search] reads it:
    [typeof total === 'number' ? total : total?.value || 0]. *)
Definition total_of (total : HitsTotal) : Q :=
  match total with
  | total_number n => n
  | total_object (Some value) => if Qeq_bool value 0 then 0%Q else value
  | total_object None => 0%Q
  | total_missing => 0%Q
  end.

(** [search]. [client_search] is the engine's search call and [now_ms]
    is [Date.now()]. *)
Definition search (client_search : list string -> SearchBody -> M SearchResponse)
    (now_ms : M Q) (query : SearchQuery) : M SearchResult :=
  startTime <- now_ms ;;
  try_catch
    (let searchBody := buildSearchQuery query in
     let indices := getSearchIndices (q_filters query ≫= f_type) in
     response <- client_search indices searchBody ;;
     let documents :=
       map (fun hit =>
              mkScoredDocument (hit_source hit) (hit_score hit)
                (hit_highlight hit))
         (resp_hits response) in
     endTime <- now_ms ;;
     let result :=
       mkSearchResult documents (total_of (resp_total response))
         (resp_aggregations response) (endTime - startTime)%Q in
     logger.debug "Search completed" ;;
     ret result)
    (fun error =>
       logger.error "Search failed" ;;
       throw error).

(** The request body of [getSuggestions]. *)
Definition suggestBody (query tenantId : string) : SuggestBody :=
  mkSuggestBody query "title.suggest" 10 [term "tenantId" tenantId] 0.

(** [getSuggestions]. [client_suggest] is the engine's search call on the
    index pattern with the suggestion body. *)
Definition getSuggestions
    (client_suggest : string -> SuggestBody -> M SuggestResponse)
    (query tenantId : string) : M (list string) :=
  try_catch
    (response <- client_suggest (indexPrefix +:+ "_*")
                   (suggestBody query tenantId) ;;
     let suggestions :=
       match resp_suggest response with
       | Some section =>
           match title_suggest section with
           | Some (entry :: _) => default [] (se_options entry)
           | _ => []
           end
       | None => []
       end in
     ret (map so_text suggestions))
    (fun error =>
       logger.error "Failed to get suggestions" ;;
       ret []).

(** [getIndexStats]. [client_cat_indices] is the engine's [cat.indices]
    call on the index pattern. *)
Definition getIndexStats (client_cat_indices : string -> M (list CatIndex))
    (parseInt : string -> option Z) : M (list IndexStats) :=
  try_catch
    (indices <- client_cat_indices (indexPrefix +:+ "_*") ;;
     mapM (fun index =>
             now <- Date_now ;;
             ret (mkIndexStats (cat_index index)
                    (parseInt (JS.or_else (cat_docs_count index) "0"))
                    (JS.or_else (cat_store_size index) "0b")
                    (cat_health index) now))
       indices)
    (fun error =>
       logger.error "Failed to get index stats" ;;
       ret []).

End Service.
End ElasticsearchService.

(* ===================================================================== *)
(** ** [SearchController]: the request schema                             *)
(* ===================================================================== *)

Module SearchController.

(** The [pagination] object of a request body before validation. *)
Record PaginationInput := mkPaginationInput {
  in_from : option Q;
  in_size : option Q
}.

(** A request body before validation (of the right JSON shape). *)
Record SearchBodyInput := mkSearchBodyInput {
  in_query : option string;
  in_filters : option Filters;
  in_sort : option (list SortSpec);
  in_pagination : option PaginationInput
}.

Inductive ZodIssue :=
| too_small (path : list string) (minimum : Q)
| too_big (path : list string) (maximum : Q).

Inductive Parsed (A : Type) :=
| Valid (a : A)
| ZodError (issues : list ZodIssue).
Arguments Valid {A} a.
Arguments ZodError {A} issues.

(** [z.number().min(lo)] at [path]. *)
Definition check_min (path : list string) (lo x : Q) : list ZodIssue :=
  if Qle_bool lo x then [] else [too_small path lo].

(** [z.number().max(hi)] at [path]. *)
Definition check_max (path : list string) (hi x : Q) : list ZodIssue :=
  if Qle_bool x hi then [] else [too_big path hi].

(** [{ from: z.number().min(0).default(0),
       size: z.number().min(1).max(100).default(20) }]. *)
Definition PaginationSchema (input : PaginationInput) : Parsed Pagination :=
  let from := default 0%Q (in_from input) in
  let size := default 20%Q (in_size input) in
  match check_min ["pagination"; "from"] 0 from
        ++ check_min ["pagination"; "size"] 1 size
        ++ check_max ["pagination"; "size"] 100 size with
  | [] => Valid (mkPagination from size)
  | issue :: issues => ZodError (issue :: issues)
  end.

(** What [SearchQuerySchema.parse] yields: the body with its defaults. *)
Record ValidatedQuery := mkValidatedQuery {
  v_query : string;
  v_filters : option Filters;
  v_sort : option (list SortSpec);
  v_pagination : option Pagination
}.

Definition SearchQuerySchema (body : SearchBodyInput) : Parsed ValidatedQuery :=
  let query := default "" (in_query body) in
  match in_pagination body with
  | None =>
      Valid (mkValidatedQuery query (in_filters body) (in_sort body) None)
  | Some input =>
      match PaginationSchema input with
      | Valid pagination =>
          Valid (mkValidatedQuery query (in_filters body) (in_sort body)
                   (Some pagination))
      | ZodError issues => ZodError issues
      end
  end.

Record JWTPayload := mkJWTPayload {
  jwt_userId : string;
  jwt_email : string;
  jwt_name : string;
  jwt_role : string;
  jwt_tenantId : string
}.

(** How [search] ends before it reaches the engine, or the query it
    hands to [ElasticsearchService.search]. *)
Inductive SearchOutcome :=
| Status400 (details : list ZodIssue)
| Status401
| Searches (searchQuery : SearchQuery).

Definition search (user : option JWTPayload) (body : SearchBodyInput)
  : SearchOutcome :=
  match SearchQuerySchema body with
  | ZodError issues => Status400 issues
  | Valid validatedQuery =>
      match user with
      | None => Status401
      | Some user =>
          Searches
            (mkSearchQuery (v_query validatedQuery)
               (v_filters validatedQuery) (v_sort validatedQuery)
               (v_pagination validatedQuery)
               (jwt_tenantId user) (jwt_userId user) (jwt_role user))
      end
  end.

End SearchController.

(* ===================================================================== *)
(** ** [MessageQueueService]                                              *)
(* ===================================================================== *)

Module MessageQueueService.

(** The payload of a [work_item.*] event. *)
Record WorkItemEvent := mkWorkItemEvent {
  ev_workItem : option WorkItem;
  ev_workItemId : option string;
  ev_newStatus : option string
}.

(** The payload of a [user.*] event. *)
Record UserEvent := mkUserEvent {
  ev_user : option User;
  ev_userId : option string
}.

(** The payload of a [search.reindex.*] request. *)
Record ReindexRequest := mkReindexRequest {
  rq_tenantId : option string;
  rq_type : option string
}.

(** [JSON.parse(msg.content.toString())]. *)
Definition JSON_parse {P} (msg : Message P) : M P :=
  match msg_content msg with
  | Some eventData => ret eventData
  | None => throw SyntaxError
  end.

(** [this.channel!.ack(msg)]. *)
Definition ack {P} (msg : Message P) : M unit :=
  fun w =>
    (Ok tt,
     mkWorld (es w) (logs w) (Ack (msg_tag msg) :: channel w) (clock w)).

Section Service.

Variable indexPrefix : string.

(** The [try] block of [handleWorkItemEvent]. *)
Definition handleWorkItemEvent_try (msg : Message WorkItemEvent) : M unit :=
  eventData <- JSON_parse msg ;;
  let routingKey := msg_routingKey msg in
  if (String.eqb routingKey "work_item.created"
      || String.eqb routingKey "work_item.updated")%bool then
    ElasticsearchService.reindexWorkItem indexPrefix (ev_workItem eventData) ;;
    logger.info "Work item indexed"
  else if String.eqb routingKey "work_item.deleted" then
    ElasticsearchService.deleteDocument indexPrefix "work_items"
      (ev_workItemId eventData) ;;
    logger.info "Work item removed from index"
  else if String.eqb routingKey "work_item.status_changed" then
    now <- Date_now ;;
    ElasticsearchService.updateDocument indexPrefix "work_items"
      (ev_workItemId eventData)
      (mkDocumentUpdate (ev_newStatus eventData) (Some now)) ;;
    logger.info "Work item status updated in index"
  else ret tt.

Definition handleWorkItemEvent (msg : Message WorkItemEvent) : M unit :=
  try_catch (handleWorkItemEvent_try msg)
    (fun error => logger.error "Failed to handle work item event").

(** The [userDocument] of [handleUserEvent]. *)
Definition userDocument (user : User) (now : string) : Document :=
  {| doc_id := usr_id user;
     doc_type := "user";
     doc_tenantId := usr_tenant_id user;
     doc_title := usr_name user;
     doc_content :=
       usr_name user +:+ " " +:+ usr_email user +:+ " " +:+ usr_role user;
     doc_email := Some (usr_email user);
     doc_role := Some (usr_role user);
     doc_department := usr_department user;
     doc_tags := JS.or_empty (usr_tags user);
     doc_permissions :=
       ["tenant:" +:+ usr_tenant_id user; "user:" +:+ usr_id user];
     doc_createdAt := usr_created_at user;
     doc_updatedAt := JS.or_else (usr_updated_at user) now;
     doc_createdBy := Some (JS.or_else (usr_created_by user) "system");
     doc_metadata :=
       [("lastLogin", MStr <$> usr_last_login user);
        ("isActive", MBool <$> usr_is_active user)];
     doc_workItemType := None;
     doc_status := None;
     doc_priority := None;
     doc_assignedTo := None;
     doc_parentId := None;
     doc_dueDate := None;
     doc_progress := None;
     doc_dependencies := None;
     doc_lineage := None |}.

(** The [try] block of [handleUserEvent]. *)
Definition handleUserEvent_try (msg : Message UserEvent) : M unit :=
  eventData <- JSON_parse msg ;;
  let routingKey := msg_routingKey msg in
  if (String.eqb routingKey "user.created"
      || String.eqb routingKey "user.updated")%bool then
    match ev_user eventData with
    | None => throw TypeError
    | Some user =>
        now <- Date_now ;;
        ElasticsearchService.indexDocument indexPrefix "users"
          (userDocument user now) ;;
        logger.info "User indexed"
    end
  else if String.eqb routingKey "user.deleted" then
    ElasticsearchService.deleteDocument indexPrefix "users"
      (ev_userId eventData) ;;
    logger.info "User removed from index"
  else ret tt.

Definition handleUserEvent (msg : Message UserEvent) : M unit :=
  try_catch (handleUserEvent_try msg)
    (fun error => logger.error "Failed to handle user event").

(** The [try] block of [handleReindexRequest]. *)
Definition handleReindexRequest_try (msg : Message ReindexRequest) : M unit :=
  requestData <- JSON_parse msg ;;
  let routingKey := msg_routingKey msg in
  if String.eqb routingKey "search.reindex.all" then
    logger.info "Starting full reindex"
  else if String.eqb routingKey "search.reindex.tenant" then
    logger.info "Starting tenant reindex"
  else if String.eqb routingKey "search.reindex.type" then
    logger.info "Starting type reindex"
  else ret tt.

Definition handleReindexRequest (msg : Message ReindexRequest) : M unit :=
  try_catch (handleReindexRequest_try msg)
    (fun error => logger.error "Failed to handle reindex request").

(** The three callbacks that [setupConsumers] registers; the broker
    calls them with [null] when it cancels the consumer. *)
Definition consume_work_items (msg : option (Message WorkItemEvent))
  : M unit :=
  match msg with
  | Some msg => handleWorkItemEvent msg ;; ack msg
  | None => ret tt
  end.

Definition consume_users (msg : option (Message UserEvent)) : M unit :=
  match msg with
  | Some msg => handleUserEvent msg ;; ack msg
  | None => ret tt
  end.

Definition consume_reindex (msg : option (Message ReindexRequest)) : M unit :=
  match msg with
  | Some msg => handleReindexRequest msg ;; ack msg
  | None => ret tt
  end.

End Service.
End MessageQueueService.

(* ===================================================================== *)
(** ** [ElasticsearchService]: the indices and their mappings             *)
(* ===================================================================== *)

Record SubField := mkSubField {
  sf_type : string;
  sf_analyzer : option string
}.

(** One entry of [properties]. *)
Record FieldMapping := mkFieldMapping {
  fm_type : string;
  fm_analyzer : option string;
  fm_search_analyzer : option string;
  fm_fields : list (string * SubField);
  fm_dynamic : option bool
}.

Record Analyzer := mkAnalyzer {
  an_type : string;
  an_tokenizer : string;
  an_filter : list string
}.

Record IndexSettings := mkIndexSettings {
  number_of_shards : nat;
  number_of_replicas : nat;
  analysis_analyzer : list (string * Analyzer)
}.

(** The body of [indices.create]. *)
Record IndexBody := mkIndexBody {
  ib_settings : IndexSettings;
  ib_mappings : list (string * FieldMapping)
}.

(** Why an administration call of the engine raises. *)
Inductive EngineError :=
| Unavailable            (* the cluster does not answer *)
| AlreadyExists          (* create of an index that exists *)
| Refused.               (* the engine rejects the index *)

Inductive Answer (A : Type) :=
| Answered (a : A)
| Raised (e : EngineError).
Arguments Answered {A} a.
Arguments Raised {A} e.

(** The engine as the administration calls see it: whether the cluster
    answers, the indices it holds with the body they were created with,
    and the index names it refuses to create. *)
Record Cluster := mkCluster {
  cl_up : bool;
  cl_indices : gmap string IndexBody;
  cl_refused : gset string
}.

(** The administration calls of the engine client that the service uses,
    with the contract of the engine's index API: [exists] tells whether
    the index is there; [create] adds it with the given body and raises
    when it is there already or when the engine refuses it; every call
    raises when the cluster does not answer. *)
Module cluster.

Definition health (c : Cluster) : Answer string :=
  if cl_up c then Answered "green" else Raised Unavailable.

Definition indices_exists (index : string) (c : Cluster) : Answer bool :=
  if cl_up c then Answered (bool_decide (is_Some (cl_indices c !! index)))
  else Raised Unavailable.

Definition indices_create (index : string) (body : IndexBody) (c : Cluster)
  : Answer unit * Cluster :=
  if negb (cl_up c) then (Raised Unavailable, c)
  else if bool_decide (is_Some (cl_indices c !! index)) then
    (Raised AlreadyExists, c)
  else if bool_decide (index ∈ cl_refused c) then (Raised Refused, c)
  else (Answered tt,
        mkCluster (cl_up c) (<[index := body]> (cl_indices c))
          (cl_refused c)).

End cluster.

Module IndexSetup.
Section Setup.

Variable indexPrefix : string.

Definition keyword : FieldMapping :=
  mkFieldMapping "keyword" None None [] None.
Definition date : FieldMapping := mkFieldMapping "date" None None [] None.
Definition integer : FieldMapping :=
  mkFieldMapping "integer" None None [] None.
Definition boolean : FieldMapping :=
  mkFieldMapping "boolean" None None [] None.
Definition dynamic_object : FieldMapping :=
  mkFieldMapping "object" None None [] (Some true).

Definition getWorkItemMapping : list (string * FieldMapping) :=
  [("id", keyword);
   ("type", keyword);
   ("tenantId", keyword);
   ("title",
    mkFieldMapping "text" (Some "htma_text_analyzer")
      (Some "htma_search_analyzer")
      [("keyword", mkSubField "keyword" None);
       ("suggest", mkSubField "completion" (Some "simple"))] None);
   ("content",
    mkFieldMapping "text" (Some "htma_text_analyzer")
      (Some "htma_search_analyzer") [] None);
   ("workItemType", keyword);
   ("status", keyword);
   ("priority", keyword);
   ("assignedTo", keyword);
   ("parentId", keyword);
   ("tags", keyword);
   ("dependencies", keyword);
   ("lineage", keyword);
   ("permissions", keyword);
   ("progress", integer);
   ("createdAt", date);
   ("updatedAt", date);
   ("dueDate", date);
   ("createdBy", keyword);
   ("metadata", dynamic_object)].

Definition getUserMapping : list (string * FieldMapping) :=
  [("id", keyword);
   ("type", keyword);
   ("tenantId", keyword);
   ("title",
    mkFieldMapping "text" (Some "htma_text_analyzer") None
      [("keyword", mkSubField "keyword" None);
       ("suggest", mkSubField "completion" None)] None);
   ("content", mkFieldMapping "text" (Some "htma_text_analyzer") None [] None);
   ("email", keyword);
   ("role", keyword);
   ("department", keyword);
   ("tags", keyword);
   ("permissions", keyword);
   ("createdAt", date);
   ("updatedAt", date);
   ("metadata", dynamic_object)].

Definition getTemplateMapping : list (string * FieldMapping) :=
  [("id", keyword);
   ("type", keyword);
   ("tenantId", keyword);
   ("title",
    mkFieldMapping "text" (Some "htma_text_analyzer") None
      [("keyword", mkSubField "keyword" None);
       ("suggest", mkSubField "completion" None)] None);
   ("content", mkFieldMapping "text" (Some "htma_text_analyzer") None [] None);
   ("category", keyword);
   ("industry", keyword);
   ("complexity", keyword);
   ("tags", keyword);
   ("permissions", keyword);
   ("isPublic", boolean);
   ("usageCount", integer);
   ("createdAt", date);
   ("updatedAt", date);
   ("createdBy", keyword);
   ("metadata", dynamic_object)].

(** The [settings] that every index is created with. *)
Definition settings : IndexSettings :=
  mkIndexSettings 1 0
    [("htma_text_analyzer",
      mkAnalyzer "custom" "standard" ["lowercase"; "stop"; "snowball"]);
     ("htma_search_analyzer",
      mkAnalyzer "custom" "standard" ["lowercase"; "stop"])].

(** The [indices] array of [setupIndices]: names and mappings. *)
Definition indices : list (string * list (string * FieldMapping)) :=
  [(indexPrefix +:+ "_work_items", getWorkItemMapping);
   (indexPrefix +:+ "_users", getUserMapping);
   (indexPrefix +:+ "_templates", getTemplateMapping)].

(** One turn of the loop of [setupIndices], on the cluster and the log. *)
Definition setupIndex (index : string * list (string * FieldMapping))
    (state : Cluster * list LogEntry) : Cluster * list LogEntry :=
  let '(c, log) := state in
  match cluster.indices_exists (fst index) c with
  | Answered true => (c, log)
  | Answered false =>
      match cluster.indices_create (fst index)
              (mkIndexBody settings (snd index)) c with
      | (Answered _, c') => (c', mkLog LInfo "Index created" :: log)
      | (Raised _, c') => (c', mkLog LError "Failed to setup index" :: log)
      end
  | Raised _ => (c, mkLog LError "Failed to setup index" :: log)
  end.

Definition setupIndices (state : Cluster * list LogEntry)
  : Cluster * list LogEntry :=
  fold_left (fun state index => setupIndex index state) indices state.

Definition connect (state : Cluster * list LogEntry)
  : Answer unit * (Cluster * list LogEntry) :=
  let '(c, log) := state in
  match cluster.health c with
  | Answered _ =>
      (Answered tt,
       setupIndices (c, mkLog LInfo "Elasticsearch connected" :: log))
  | Raised error =>
      (Raised error,
       (c, mkLog LError "Elasticsearch connection failed" :: log))
  end.

End Setup.
End IndexSetup.

(* ===================================================================== *)
(** ** [authMiddleware]                                                    *)
(* ===================================================================== *)

(** How a middleware ends: it answers, or it calls [next()] and leaves a
    value on the request. *)
Inductive Step (A : Type) :=
| respond (status : nat) (error : string)
| next (a : A).
Arguments respond {A} status error.
Arguments next {A} a.

Module authMiddleware.
Section Middleware.

(** [jwt.verify(token, secret)]: the payload, or [None] when it throws. *)
Variable jwt_verify : string -> string -> option SearchController.JWTPayload.

(** [process.env.JWT_SECRET || 'htma-search-secret-key']. *)
Variable jwtSecret : string.

(** [authMiddleware]; [next payload] stands for [req.user = payload]
    followed by [next()]. Nothing in the outer [try] raises but
    [jwt.verify], which has a [catch] of its own. *)
Definition authMiddleware (authHeader : option string)
  : M (Step SearchController.JWTPayload) :=
  if (negb (JS.truthy_opt authHeader)
      || negb (JS.startsWith (default "" authHeader) "Bearer "))%bool then
    ret (respond 401 "Authorization header required")
  else
    let token := JS.substring 7 (default "" authHeader) in
    match jwt_verify token jwtSecret with
    | Some payload =>
        logger.debug "User authenticated" ;;
        ret (next payload)
    | None =>
        logger.warn "Invalid JWT token" ;;
        ret (respond 401 "Invalid or expired token")
    end.

Definition requireRole (allowedRoles : list string)
    (user : option SearchController.JWTPayload) : M (Step unit) :=
  match user with
  | None => ret (respond 401 "Authentication required")
  | Some user =>
      if negb (JS.includes allowedRoles (SearchController.jwt_role user)) then
        logger.warn "Insufficient permissions" ;;
        ret (respond 403 "Insufficient permissions")
      else ret (next tt)
  end.

(** [tenantId] is [req.params.tenantId]. *)
Definition requireSameTenant (user : option SearchController.JWTPayload)
    (tenantId : option string) : M (Step unit) :=
  match user with
  | None => ret (respond 401 "Authentication required")
  | Some user =>
      if (JS.truthy_opt tenantId
          && negb (String.eqb (SearchController.jwt_tenantId user)
                     (default "" tenantId)))%bool then
        logger.warn "Cross-tenant access attempt" ;;
        ret (respond 403 "Access denied")
      else ret (next tt)
  end.

End Middleware.
End authMiddleware.

(* ===================================================================== *)
(** ** [SearchController]: the endpoints                                   *)
(* ===================================================================== *)

(** What an endpoint answers: [success data] is
    [res.json({ success: true, data })]; [invalid] is the 400 answer to a
    schema error with its details; [failure status marked error] is
    [res.status(status).json({ error })], with [success: false] beside
    the error when [marked]. *)
Inductive Reply (A : Type) :=
| success (data : A)
| invalid (details : list SearchController.ZodIssue)
| failure (status : nat) (marked : bool) (error : string).
Arguments success {A} data.
Arguments invalid {A} details.
Arguments failure {A} status marked error.

(** The answer of the health endpoint. *)
Record HealthReport := mkHealthReport {
  hr_code : nat;
  hr_status : string;
  hr_timestamp : string;
  hr_connected : bool;
  hr_indices : option nat
}.

(** A query-string parameter: a string, or an array or object. *)
Inductive QueryParam :=
| qp_string (s : string)
| qp_other.

Module SearchEndpoints.
Section Endpoints.

Variable indexPrefix : string.
Variable client_search : list string -> SearchBody -> M SearchResponse.
Variable client_suggest : string -> SuggestBody -> M SuggestResponse.
Variable client_cat_indices : string -> M (list CatIndex).
Variable now_ms : M Q.
Variable parseInt : string -> option Z.

Definition admins : list string := ["admin"; "CEO"; "President"].

(** The text [Query parameter "q" is required]. *)
Definition q_is_required : string :=
  "Query parameter " +:+ String (ascii_of_nat 34) "q"
  +:+ String (ascii_of_nat 34) " is required".

(** [search], from the request to the answer. *)
Definition search (user : option SearchController.JWTPayload)
    (body : SearchController.SearchBodyInput) : M (Reply SearchResult) :=
  match SearchController.search user body with
  | SearchController.Status400 details =>
      logger.error "Search failed" ;;
      ret (invalid details)
  | SearchController.Status401 =>
      ret (failure 401 false "Authentication required")
  | SearchController.Searches searchQuery =>
      try_catch
        (results <- ElasticsearchService.search indexPrefix client_search
                      now_ms searchQuery ;;
         logger.info "Search completed" ;;
         ret (success results))
        (fun error =>
           logger.error "Search failed" ;;
           ret (failure 500 true "Search failed"))
  end.

Definition suggest (user : option SearchController.JWTPayload)
    (q : option QueryParam) : M (Reply (list string)) :=
  try_catch
    (match user with
     | None => ret (failure 401 false "Authentication required")
     | Some user =>
         match q with
         | Some (qp_string q) =>
             if JS.truthy q then
               suggestions <-
                 ElasticsearchService.getSuggestions indexPrefix
                   client_suggest q (SearchController.jwt_tenantId user) ;;
               ret (success suggestions)
             else ret (failure 400 false q_is_required)
         | _ => ret (failure 400 false q_is_required)
         end
     end)
    (fun error =>
       logger.error "Suggestions failed" ;;
       ret (failure 500 true "Failed to get suggestions")).

Definition stats (user : option SearchController.JWTPayload)
  : M (Reply (list IndexStats)) :=
  try_catch
    (match user with
     | None => ret (failure 401 false "Authentication required")
     | Some user =>
         if negb (JS.includes admins (SearchController.jwt_role user)) then
           ret (failure 403 false "Insufficient permissions")
         else
           stats <- ElasticsearchService.getIndexStats indexPrefix
                      client_cat_indices parseInt ;;
           ret (success stats)
     end)
    (fun error =>
       logger.error "Stats retrieval failed" ;;
       ret (failure 500 true "Failed to get statistics")).

(** [indexDocument]; [indexName] and [document] are the two fields of the
    request body. *)
Definition indexDocument (user : option SearchController.JWTPayload)
    (indexName : option string) (document : option Document)
  : M (Reply string) :=
  try_catch
    (match user with
     | None => ret (failure 401 false "Authentication required")
     | Some user =>
         if negb (JS.includes admins (SearchController.jwt_role user)) then
           ret (failure 403 false "Insufficient permissions")
         else
           match indexName, document with
           | Some indexName, Some document =>
               if JS.truthy indexName then
                 ElasticsearchService.indexDocument indexPrefix indexName
                   document ;;
                 logger.info "Manual document indexed" ;;
                 ret (success "Document indexed successfully")
               else
                 ret (failure 400 false "indexName and document are required")
           | _, _ =>
               ret (failure 400 false "indexName and document are required")
           end
     end)
    (fun error =>
       logger.error "Manual indexing failed" ;;
       ret (failure 500 true "Indexing failed")).

Definition health : M HealthReport :=
  try_catch
    (stats <- ElasticsearchService.getIndexStats indexPrefix
                client_cat_indices parseInt ;;
     now <- Date_now ;;
     ret (mkHealthReport 200 "healthy" now true (Some (length stats))))
    (fun error =>
       logger.error "Health check failed" ;;
       now <- Date_now ;;
       ret (mkHealthReport 503 "unhealthy" now false None)).

End Endpoints.
End SearchEndpoints.

(* ===================================================================== *)
(** ** [SearchServiceApp]: the routes                                      *)
(* ===================================================================== *)

Module SearchServiceApp.
Section Routes.

Variable indexPrefix : string.
Variable client_search : list string -> SearchBody -> M SearchResponse.
Variable client_suggest : string -> SuggestBody -> M SuggestResponse.
Variable client_cat_indices : string -> M (list CatIndex).
Variable now_ms : M Q.
Variable parseInt : string -> option Z.
Variable jwt_verify : string -> string -> option SearchController.JWTPayload.
Variable jwtSecret : string.

(** The roles that the router lets through to the admin endpoints. *)
Definition admin_roles : list string := ["admin"; "CEO"; "President"].

(** A route of the API router: [authMiddleware] runs first, then the
    middlewares of the route, then the handler; a middleware that answers
    ends the request. *)
Definition behind {A B} (gate : M (Step A)) (handler : A -> M (Reply B))
  : M (Reply B) :=
  step <- gate ;;
  match step with
  | respond status error => ret (failure status true error)
  | next a => handler a
  end.

Definition authenticated {B}
    (authorization : option string)
    (handler : SearchController.JWTPayload -> M (Reply B)) : M (Reply B) :=
  behind (authMiddleware.authMiddleware jwt_verify jwtSecret authorization)
    handler.

(** [GET /health]: public. *)
Definition get_health : M HealthReport :=
  SearchEndpoints.health indexPrefix client_cat_indices parseInt.

(** [POST /api/search]. *)
Definition post_search (authorization : option string)
    (body : SearchController.SearchBodyInput) : M (Reply SearchResult) :=
  authenticated authorization (fun user =>
    SearchEndpoints.search indexPrefix client_search now_ms (Some user) body).

(** [GET /api/suggest]. *)
Definition get_suggest (authorization : option string)
    (q : option QueryParam) : M (Reply (list string)) :=
  authenticated authorization (fun user =>
    SearchEndpoints.suggest indexPrefix client_suggest (Some user) q).

(** [GET /api/stats]. *)
Definition get_stats (authorization : option string)
  : M (Reply (list IndexStats)) :=
  authenticated authorization (fun user =>
    behind (authMiddleware.requireRole admin_roles (Some user))
      (fun _ =>
         SearchEndpoints.stats indexPrefix client_cat_indices parseInt
           (Some user))).

(** [POST /api/index]. *)
Definition post_index (authorization : option string)
    (indexName : option string) (document : option Document)
  : M (Reply string) :=
  authenticated authorization (fun user =>
    behind (authMiddleware.requireRole admin_roles (Some user))
      (fun _ =>
         SearchEndpoints.indexDocument indexPrefix (Some user) indexName
           document)).

End Routes.
End SearchServiceApp.

(* ===================================================================== *)
(** ** Notions used by the statements                                      *)
(* ===================================================================== *)

Import ElasticsearchService SearchController MessageQueueService.

(** The world a computation leaves, and what it returns. *)
Definition after {A} (m : M A) (w : World) : World := snd (m w).
Definition outcome {A} (m : M A) (w : World) : Result A := fst (m w).

(** A document is a hit of a compiled query when every [must] and every
    [filter] clause holds of it, whatever [holds] the engine gives to a
    clause. *)
Definition is_hit (holds : Document -> Clause -> bool) (body : SearchBody)
    (d : Document) : bool :=
  (forallb (holds d) (sb_must body) && forallb (holds d) (sb_filter body))%bool.

(** A reading of clauses that only interprets the tenant term. *)
Definition tenant_term_only (d : Document) (c : Clause) : bool :=
  match c with
  | term field value =>
      if String.eqb field "tenantId" then String.eqb (doc_tenantId d) value
      else true
  | _ => true
  end.

(** The collections whose document type is listed in [types]. *)
Definition collection_type (collection : string) : string :=
  if String.eqb collection "work_items" then "work_item"
  else if String.eqb collection "users" then "user"
  else if String.eqb collection "templates" then "template"
  else collection.

Definition matching_collections (types : list string) : list string :=
  List.filter (fun c => JS.includes types (collection_type c)) allIndices.

(** The weighted multi-field match of the free-text clause. *)
Definition free_text_match (text : string) : Clause :=
  multi_match text
    [mkBoost "title" 3; mkBoost "content" 2; mkBoost "tags" 1.5]
    "best_fields" "AUTO".


(** A [work_item.created] or [work_item.updated] delivery of a snapshot. *)
Definition upsert_key (created : bool) : string :=
  if created then "work_item.created" else "work_item.updated".

Definition upsert_event (tag : nat) (created : bool) (workItem : WorkItem)
  : Message WorkItemEvent :=
  mkMessage tag (upsert_key created)
    (Some (mkWorkItemEvent (Some workItem) None None)).

(** The deliveries of the work-item queue, consumed one after the other. *)
Definition consume_all (indexPrefix : string)
    (msgs : list (Message WorkItemEvent)) (w : World) : World :=
  fold_left
    (fun w msg => after (consume_work_items indexPrefix (Some msg)) w) msgs w.

(** Timestamps are ISO-8601 strings in UTC: their order is the order of
    the strings. *)
Definition earlier (t1 t2 : string) : bool := String.ltb t1 t2.

(* --------------------------------------------------------------------- *)
(** *** The claims as the specification words them                        *)
(* --------------------------------------------------------------------- *)

(** Stale-write rejection: after E1 then E2, with E2 the older snapshot of
    the same id, the indexed document is the one of E1. *)
Definition stale_write_rejected (indexPrefix : string) (w : World)
    (e1 e2 : WorkItem) : Prop :=
  wi_id e1 = wi_id e2 ->
  earlier (wi_updated_at e2) (wi_updated_at e1) = true ->
  es (consume_all indexPrefix
        [upsert_event 1 false e1; upsert_event 2 false e2] w)
    !! (fullIndexName indexPrefix "work_items", wi_id e1)
  = Some (workItemDocument e1).


(** Delete of an id that is not in the index succeeds. *)
Definition delete_of_missing_succeeds (indexPrefix : string) (w : World)
    (indexName id : string) : Prop :=
  es w !! (fullIndexName indexPrefix indexName, id) = None ->
  outcome (deleteDocument indexPrefix indexName (Some id)) w = Ok tt.

(** A requested page size is clamped into [1,100]. *)
Definition size_is_clamped (size : Q) : Prop :=
  exists pagination,
    PaginationSchema (mkPaginationInput None (Some size)) = Valid pagination
    /\ (1 <= pg_size pagination)%Q /\ (pg_size pagination <= 100)%Q.

(** With a non-empty type filter only the matching collections are
    searched. *)
Definition only_matching_searched (indexPrefix : string) (types : list string)
  : Prop :=
  types <> [] ->
  getSearchIndices indexPrefix (Some types)
  = map (fullIndexName indexPrefix) (matching_collections types).




(** The page a request asks for, once the schema's defaults are filled in. *)
Definition requested_from (input : PaginationInput) : Q :=
  default 0%Q (in_from input).
Definition requested_size (input : PaginationInput) : Q :=
  default 20%Q (in_size input).

Definition within_bounds (input : PaginationInput) : Prop :=
  (0 <= requested_from input)%Q
  /\ (1 <= requested_size input)%Q /\ (requested_size input <= 100)%Q.

(** What consuming one [work_item.*] delivery does to the store, read off
    the routing key and the payload. [handleWorkItemEvent] is shown below
    to have exactly this effect. *)
Definition work_item_effect (indexPrefix : string)
    (msg : Message WorkItemEvent) (now : string)
    (store : gmap (string * string) Document) : gmap (string * string) Document :=
  let index := fullIndexName indexPrefix "work_items" in
  match msg_content msg with
  | None => store
  | Some eventData =>
      let routingKey := msg_routingKey msg in
      if (String.eqb routingKey "work_item.created"
          || String.eqb routingKey "work_item.updated")%bool then
        match ev_workItem eventData with
        | Some workItem =>
            <[(index, wi_id workItem) := workItemDocument workItem]> store
        | None => store
        end
      else if String.eqb routingKey "work_item.deleted" then
        match ev_workItemId eventData with
        | Some id => delete (index, id) store
        | None => store
        end
      else if String.eqb routingKey "work_item.status_changed" then
        match ev_workItemId eventData with
        | Some id =>
            match store !! (index, id) with
            | Some d =>
                <[(index, id) :=
                    client.merge
                      (mkDocumentUpdate (ev_newStatus eventData) (Some now)) d]>
                  store
            | None => store
            end
        | None => store
        end
      else store
  end.

(* --------------------------------------------------------------------- *)
(** *** Sample data                                                        *)
(* --------------------------------------------------------------------- *)

Module Sample.

Definition launch_plan : WorkItem :=
  {| wi_id := "wi1"; wi_tenant_id := "t1"; wi_title := "Launch plan";
     wi_description := Some "Plan the launch"; wi_type := "task";
     wi_status := "open"; wi_priority := "high";
     wi_assigned_to := Some "u42"; wi_parent_id := None;
     wi_tags := Some ["launch"]; wi_dependencies := None;
     wi_lineage := None; wi_progress := None;
     wi_created_at := "2024-05-01T09:00:00.000Z";
     wi_updated_at := "2024-05-02T10:00:00.000Z";
     wi_due_date := None; wi_created_by := Some "u7";
     wi_estimated_hours := None; wi_actual_hours := None;
     wi_completion_date := None |}.

(** An older snapshot of the same work item. *)
Definition launch_draft : WorkItem :=
  {| wi_id := "wi1"; wi_tenant_id := "t1"; wi_title := "Launch draft";
     wi_description := None; wi_type := "task";
     wi_status := "draft"; wi_priority := "low";
     wi_assigned_to := None; wi_parent_id := None;
     wi_tags := None; wi_dependencies := None;
     wi_lineage := None; wi_progress := None;
     wi_created_at := "2024-05-01T09:00:00.000Z";
     wi_updated_at := "2024-05-01T09:30:00.000Z";
     wi_due_date := None; wi_created_by := Some "u7";
     wi_estimated_hours := None; wi_actual_hours := None;
     wi_completion_date := None |}.

Definition empty_world : World :=
  mkWorld ∅ [] [] "2024-05-03T00:00:00.000Z".

Definition manager : JWTPayload :=
  mkJWTPayload "u1" "u1@example.org" "User One" "Manager" "t1".

Definition launch_query : SearchQuery :=
  mkSearchQuery "launch" None None None "t1" "u1" "Manager".




End Sample.

(* --------------------------------------------------------------------- *)
(** *** Notions for the synchroniser as a whole                            *)
(* --------------------------------------------------------------------- *)

(** A [work_item.deleted] delivery for an id. *)
Definition delete_event (tag : nat) (id : string) : Message WorkItemEvent :=
  mkMessage tag "work_item.deleted" (Some (mkWorkItemEvent None (Some id) None)).


(** A [user.created] or [user.updated] delivery of a snapshot. *)
Definition user_event (tag : nat) (created : bool) (user : User)
  : Message UserEvent :=
  mkMessage tag (if created then "user.created" else "user.updated")
    (Some (mkUserEvent (Some user) None)).

(** A [user.deleted] delivery for an id. *)
Definition user_delete_event (tag : nat) (id : string) : Message UserEvent :=
  mkMessage tag "user.deleted" (Some (mkUserEvent None (Some id))).


(** What consuming one [user.*] delivery does to the store. *)
Definition user_effect (indexPrefix : string) (msg : Message UserEvent)
    (now : string) (store : gmap (string * string) Document)
  : gmap (string * string) Document :=
  let index := fullIndexName indexPrefix "users" in
  match msg_content msg with
  | None => store
  | Some eventData =>
      let routingKey := msg_routingKey msg in
      if (String.eqb routingKey "user.created"
          || String.eqb routingKey "user.updated")%bool then
        match ev_user eventData with
        | Some user => <[(index, usr_id user) := userDocument user now]> store
        | None => store
        end
      else if String.eqb routingKey "user.deleted" then
        match ev_userId eventData with
        | Some id => delete (index, id) store
        | None => store
        end
      else store
  end.



(** The error entry a handler writes when it catches. *)
Definition caught (message : string) : LogEntry := mkLog LError message.

(* --------------------------------------------------------------------- *)
(** *** Notions for the query compiler as a whole                          *)
(* --------------------------------------------------------------------- *)

(** The values a request lists for a facet, by the facet's field name. *)
Definition facet (filters : Filters) (field : string) : option (list string) :=
  if String.eqb field "type" then f_type filters
  else if String.eqb field "workItemType" then f_workItemType filters
  else if String.eqb field "status" then f_status filters
  else if String.eqb field "priority" then f_priority filters
  else if String.eqb field "assignedTo" then f_assignedTo filters
  else if String.eqb field "tags" then f_tags filters
  else None.


(** The same request made by another user with another role. *)
Definition as_user (userId userRole : string) (query : SearchQuery)
  : SearchQuery :=
  mkSearchQuery (q_query query) (q_filters query) (q_sort query)
    (q_pagination query) (q_tenantId query) userId userRole.

(* --------------------------------------------------------------------- *)
(** *** Notions for the endpoints                                          *)
(* --------------------------------------------------------------------- *)

(** The completions of a suggestion response: the options of the first
    [title_suggest] entry. *)
Definition first_options (response : SuggestResponse) : list SuggestOption :=
  match resp_suggest response with
  | Some section =>
      match title_suggest section with
      | Some (entry :: _) => default [] (se_options entry)
      | _ => []
      end
  | None => []
  end.

(** The statistics of one [cat.indices] row read at time [now]. *)
Definition stats_of_row (parseInt : string -> option Z) (now : string)
    (index : CatIndex) : IndexStats :=
  mkIndexStats (cat_index index)
    (parseInt (JS.or_else (cat_docs_count index) "0"))
    (JS.or_else (cat_store_size index) "0b")
    (cat_health index) now.

(** The world after one more log entry. *)
Definition logged (entry : LogEntry) (w : World) : World :=
  mkWorld (es w) (entry :: logs w) (channel w) (clock w).

(* --------------------------------------------------------------------- *)
(** *** Notions for the indices                                            *)
(* --------------------------------------------------------------------- *)

(** The type a mapping gives to a field. *)
Definition field_type (mapping : list (string * FieldMapping))
    (field : string) : option string :=
  fm_type <$> (snd <$> List.find (fun p => String.eqb (fst p) field) mapping).

(** The type a mapping gives to a sub-field of a field. *)
Definition subfield_type (mapping : list (string * FieldMapping))
    (field sub : string) : option string :=
  match List.find (fun p => String.eqb (fst p) field) mapping with
  | Some (_, m) =>
      sf_type <$> (snd <$> List.find (fun p => String.eqb (fst p) sub)
                             (fm_fields m))
  | None => None
  end.

(** The analyzers that a mapping names. *)
Definition analyzers_named (mapping : list (string * FieldMapping))
  : list string :=
  flat_map
    (fun p =>
       match fm_analyzer (snd p) with Some a => [a] | None => [] end
       ++ match fm_search_analyzer (snd p) with Some a => [a] | None => [] end
       ++ flat_map
            (fun q => match sf_analyzer (snd q) with
                      | Some a => [a]
                      | None => []
                      end) (fm_fields (snd p)))
    mapping.

(** The field of an exact-match clause. *)
Definition exact_field (c : Clause) : option string :=
  match c with
  | term field _ => Some field
  | terms field _ => Some field
  | _ => None
  end.

(** Whether [setupIndices] gets an index created: the cluster answers,
    the index is not there, and the engine does not refuse it. *)
Definition creatable (name : string) (c : Cluster) : bool :=
  (cl_up c
   && negb (bool_decide (is_Some (cl_indices c !! name)))
   && negb (bool_decide (name ∈ cl_refused c)))%bool.

Definition create_if_missing (name : string) (body : IndexBody) (c : Cluster)
  : Cluster :=
  if creatable name c then
    mkCluster (cl_up c) (<[name := body]> (cl_indices c)) (cl_refused c)
  else c.

(* ===================================================================== *)
(** ** Auxiliary lemmas                                                    *)
(* ===================================================================== *)

Section TrimLemmas.

Lemma has_visible_truthy (s : string) :
  JS.has_visible s = true -> JS.truthy s = true.
Proof. destruct s; simpl; [discriminate | reflexivity]. Qed.

Lemma has_visible_trimStart (s : string) :
  JS.has_visible (JS.trimStart s) = JS.has_visible s.
Proof.
  induction s as [|c r IH]; simpl; [reflexivity |].
  destruct (JS.is_white_space c) eqn:Hc; simpl.
  - exact IH.
  - rewrite Hc. reflexivity.
Qed.

Lemma truthy_trimEnd (s : string) :
  JS.truthy (JS.trimEnd s) = JS.has_visible s.
Proof.
  induction s as [|c r IH]; simpl; [reflexivity |].
  destruct (JS.trimEnd r) as [|c' r'] eqn:Hr; simpl in *.
  - rewrite <- IH. destruct (JS.is_white_space c); reflexivity.
  - rewrite <- IH. rewrite orb_true_r. reflexivity.
Qed.

Lemma truthy_trim (s : string) :
  (JS.truthy s && JS.truthy (JS.trim s))%bool = JS.has_visible s.
Proof.
  unfold JS.trim. rewrite truthy_trimEnd, has_visible_trimStart.
  destruct (JS.has_visible s) eqn:Hv.
  - rewrite (has_visible_truthy s Hv). reflexivity.
  - apply andb_false_r.
Qed.

End TrimLemmas.

Example trim_example : JS.trim "  launch plan " = "launch plan".
Proof. reflexivity. Qed.

Section QueryLemmas.

Lemma filter_clauses_head (query : SearchQuery) :
  exists rest,
    sb_filter (buildSearchQuery query)
    = term "tenantId" (q_tenantId query) :: rest.
Proof.
  unfold buildSearchQuery.
  destruct (q_pagination query); destruct (q_filters query); simpl;
    eexists; reflexivity.
Qed.

Lemma must_clauses (query : SearchQuery) :
  sb_must (buildSearchQuery query)
  = if JS.has_visible (q_query query)
    then [free_text_match (q_query query)] else [match_all].
Proof.
  unfold buildSearchQuery. rewrite truthy_trim.
  destruct (q_pagination query); reflexivity.
Qed.

End QueryLemmas.

(* ===================================================================== *)
(** ** The query compiler                                                  *)
(* ===================================================================== *)

(** C1. Every compiled query carries, as the first clause of the [filter]
    list of its [bool] query (the non-scoring context), the exact-match
    term on [tenantId] with the tenant of the request; no [must] clause is
    a term; the tenant of a request that went through the controller is
    the one of the authenticated user, whatever the body says; and a
    document that satisfies every clause of the compiled query, under any
    reading of clauses that reads the tenant term as an exact match, has
    the tenant of the request. *)
Theorem tenant_filter_always_present (query : SearchQuery) :
  hd_error (sb_filter (buildSearchQuery query))
  = Some (term "tenantId" (q_tenantId query))
  /\ In (term "tenantId" (q_tenantId query)) (sb_filter (buildSearchQuery query))
  /\ (forall field value,
        ~ In (term field value) (sb_must (buildSearchQuery query)))
  /\ (forall user body,
        search (Some user) body = Searches query ->
        q_tenantId query = jwt_tenantId user)
  /\ (forall (holds : Document -> Clause -> bool) (d : Document),
        (forall value,
           holds d (term "tenantId" value) = true -> doc_tenantId d = value) ->
        is_hit holds (buildSearchQuery query) d = true ->
        doc_tenantId d = q_tenantId query).
Proof.
  destruct (filter_clauses_head query) as [rest Hrest].
  repeat split.
  - rewrite Hrest. reflexivity.
  - rewrite Hrest. left. reflexivity.
  - intros field value. rewrite must_clauses.
    destruct (JS.has_visible (q_query query)); simpl;
      intros [H | []]; discriminate H.
  - intros user body. unfold search.
    destruct (SearchQuerySchema body) as [v | issues]; [| discriminate].
    intros H. injection H as <-. reflexivity.
  - intros holds d Hterm. unfold is_hit. rewrite Hrest. simpl.
    intros H. apply andb_prop in H as [_ H].
    apply andb_prop in H as [H _]. apply Hterm. exact H.
Qed.

Lemma tenant_filter_always_present_witness :
  doc_tenantId (workItemDocument Sample.launch_plan)
  = q_tenantId Sample.launch_query.
Proof.
  apply (proj2 (proj2 (proj2 (proj2
           (tenant_filter_always_present Sample.launch_query))))
           tenant_term_only (workItemDocument Sample.launch_plan)).
  - intros value H. apply String.eqb_eq. exact H.
  - reflexivity.
Defined.




Ltac reduce_collection_types :=
  change (collection_type "work_items") with "work_item";
  change (collection_type "users") with "user";
  change (collection_type "templates") with "template".

(** C8 fails as worded: a type filter that lists no indexed kind
    (['project'] is a document type of the service) matches no
    collection, yet all three collections are searched. *)
Lemma unknown_type_searches_everything :
  ~ only_matching_searched "htma" ["project"].
Proof.
  intros H. unfold only_matching_searched in H.
  assert (Hne : ["project"] <> []) by discriminate.
  specialize (H Hne). vm_compute in H. discriminate H.
Qed.

(** C8, amended. When the type filter lists at least one of [work_item],
    [user], [template], exactly the collections of the listed kinds are
    searched, in the order work_items, users, templates; when the filter
    is absent, empty, or lists none of the three kinds, all three
    collections are searched. *)
Theorem search_indices_selection (indexPrefix : string) :
  (forall types,
     matching_collections types <> [] ->
     getSearchIndices indexPrefix (Some types)
     = map (fullIndexName indexPrefix) (matching_collections types))
  /\ (forall types,
        matching_collections types = [] ->
        getSearchIndices indexPrefix (Some types)
        = map (fullIndexName indexPrefix) allIndices)
  /\ getSearchIndices indexPrefix None
     = map (fullIndexName indexPrefix) allIndices
  /\ getSearchIndices indexPrefix (Some [])
     = map (fullIndexName indexPrefix) allIndices
  /\ (forall query,
        fst (search_request indexPrefix query)
        = getSearchIndices indexPrefix (q_filters query ≫= f_type)).
Proof.
  repeat split; try reflexivity.
  - intros [|t ts] Hm; [exfalso; apply Hm; reflexivity |].
    revert Hm. unfold matching_collections, getSearchIndices, allIndices.
    simpl. reduce_collection_types.
    destruct (JS.includes (t :: ts) "work_item");
      destruct (JS.includes (t :: ts) "user");
      destruct (JS.includes (t :: ts) "template"); simpl; intros Hm;
      try reflexivity.
    exfalso. apply Hm. reflexivity.
  - intros [|t ts]; [reflexivity |].
    unfold matching_collections, getSearchIndices, allIndices. simpl.
    reduce_collection_types.
    destruct (JS.includes (t :: ts) "work_item");
      destruct (JS.includes (t :: ts) "user");
      destruct (JS.includes (t :: ts) "template"); simpl; intros Hm;
      try discriminate Hm.
    reflexivity.
Qed.

Lemma search_indices_selection_witness :
  getSearchIndices "htma" (Some ["user"; "project"]) = ["htma_users"]
  /\ getSearchIndices "htma" (Some ["project"])
     = ["htma_work_items"; "htma_users"; "htma_templates"].
Proof.
  split.
  - apply (proj1 (search_indices_selection "htma") ["user"; "project"]).
    vm_compute. discriminate.
  - apply (proj1 (proj2 (search_indices_selection "htma")) ["project"]).
    vm_compute. reflexivity.
Defined.

(* ===================================================================== *)
(** ** The document mapper                                                 *)
(* ===================================================================== *)

Lemma user_token_inj (a u : string) : "user:" +:+ a = "user:" +:+ u -> a = u.
Proof. intros H. cbv [String.append] in H. injection H as H. exact H. Qed.

(** C7. A work item of tenant t1 assigned to u42 and created by u7 has
    exactly the permissions tenant:t1, user:u42, user:u7 and the five
    role tokens. For every work item the tenant token and the five role
    tokens are emitted; a user token is emitted only for an assignee or a
    creator that is present, and is emitted for each that is present and
    not the empty string. *)
Theorem permissions_derivation :
  (forall workItem,
     wi_tenant_id workItem = "t1" ->
     wi_assigned_to workItem = Some "u42" ->
     wi_created_by workItem = Some "u7" ->
     calculatePermissions workItem
     = ["tenant:t1"; "user:u42"; "user:u7"; "role:CEO"; "role:President";
        "role:VP"; "role:Director"; "role:Manager"])
  /\ (forall workItem token,
        In token ["tenant:" +:+ wi_tenant_id workItem; "role:CEO";
                  "role:President"; "role:VP"; "role:Director";
                  "role:Manager"] ->
        In token (calculatePermissions workItem))
  /\ (forall workItem u,
        In ("user:" +:+ u) (calculatePermissions workItem) ->
        wi_assigned_to workItem = Some u \/ wi_created_by workItem = Some u)
  /\ (forall workItem u,
        u <> "" ->
        wi_assigned_to workItem = Some u \/ wi_created_by workItem = Some u ->
        In ("user:" +:+ u) (calculatePermissions workItem))
  /\ (forall workItem,
        doc_permissions (workItemDocument workItem)
        = calculatePermissions workItem).
Proof.
  split; [| split; [| split; [| split]]].
  - intros workItem Ht Ha Hc. unfold calculatePermissions.
    rewrite Ht, Ha, Hc. reflexivity.
  - intros workItem token Hin. unfold calculatePermissions.
    destruct (wi_assigned_to workItem) as [a|]; [destruct (JS.truthy a) |];
      (destruct (wi_created_by workItem) as [c|]; [destruct (JS.truthy c) |]);
      simpl in *;
      repeat (destruct Hin as [<- | Hin]; [auto 12 |]); try contradiction.
  - intros workItem u. unfold calculatePermissions.
    destruct (wi_assigned_to workItem) as [a|]; [destruct (JS.truthy a) |];
      (destruct (wi_created_by workItem) as [c|]; [destruct (JS.truthy c) |]);
      simpl; intros H;
      repeat (destruct H as [H | H]; [try discriminate H |]);
      try contradiction;
      try (apply user_token_inj in H as ->; auto).
  - intros workItem u Hu Hor. unfold calculatePermissions.
    assert (Ht : JS.truthy u = true) by (destruct u; [congruence | reflexivity]).
    destruct Hor as [-> | Hc].
    + rewrite Ht.
      destruct (wi_created_by workItem) as [c|]; [destruct (JS.truthy c) |];
        simpl; auto.
    + rewrite Hc, Ht.
      destruct (wi_assigned_to workItem) as [a|]; [destruct (JS.truthy a) |];
        simpl; auto.
  - reflexivity.
Qed.

Lemma permissions_derivation_witness :
  calculatePermissions Sample.launch_plan
  = ["tenant:t1"; "user:u42"; "user:u7"; "role:CEO"; "role:President";
     "role:VP"; "role:Director"; "role:Manager"]
  /\ In "user:u7" (calculatePermissions Sample.launch_draft).
Proof.
  split.
  - apply (proj1 permissions_derivation Sample.launch_plan); reflexivity.
  - apply (proj1 (proj2 (proj2 (proj2 permissions_derivation)))
             Sample.launch_draft "u7").
    + discriminate.
    + right. reflexivity.
Defined.

(* ===================================================================== *)
(** ** Pagination                                                          *)
(* ===================================================================== *)

Section PaginationLemmas.

Lemma PaginationSchema_valid (input : PaginationInput) :
  within_bounds input ->
  PaginationSchema input
  = Valid (mkPagination (requested_from input) (requested_size input)).
Proof.
  intros (Hf & Hlo & Hhi). unfold PaginationSchema, check_min, check_max.
  fold (requested_from input) (requested_size input).
  apply Qle_bool_iff in Hf, Hlo, Hhi. rewrite Hf, Hlo, Hhi. reflexivity.
Qed.

Lemma PaginationSchema_invalid (input : PaginationInput) :
  ~ within_bounds input ->
  exists issue issues, PaginationSchema input = ZodError (issue :: issues).
Proof.
  intros Hout. unfold PaginationSchema, check_min, check_max.
  fold (requested_from input) (requested_size input).
  destruct (Qle_bool 0 (requested_from input)) eqn:Hf;
    destruct (Qle_bool 1 (requested_size input)) eqn:Hlo;
    destruct (Qle_bool (requested_size input) 100) eqn:Hhi;
    simpl; try (eexists; eexists; reflexivity).
  exfalso. apply Hout. unfold within_bounds.
  rewrite <- !Qle_bool_iff. auto.
Qed.

End PaginationLemmas.

(** C5 fails as worded: a page size of 0 or of 500 is not clamped, the
    schema rejects it. *)
Lemma size_out_of_range_is_rejected :
  ~ size_is_clamped 0 /\ ~ size_is_clamped 500.
Proof.
  split; intros (pagination & Hp & _); vm_compute in Hp; discriminate Hp.
Qed.

(** C5, amended. The schema fills in from=0 and size=20 for the fields a
    pagination object leaves out, accepts the page as it is when from is
    at least 0 and size lies in [1,100], and rejects it with a validation
    error otherwise, so a size of 0 or of 500 and a negative from end in
    a 400 answer; an accepted page reaches the compiled query unchanged;
    when the request has no pagination, the compiled query has size 20
    and sets no from. *)
Theorem pagination_bounds :
  (forall input,
     within_bounds input ->
     PaginationSchema input
     = Valid (mkPagination (requested_from input) (requested_size input)))
  /\ (forall input,
        ~ within_bounds input ->
        exists issue issues,
          PaginationSchema input = ZodError (issue :: issues))
  /\ (forall user query filters sort input,
        ~ within_bounds input ->
        exists details,
          search user (mkSearchBodyInput query filters sort (Some input))
          = Status400 details)
  /\ (forall user query filters sort input,
        within_bounds input ->
        exists searchQuery,
          search (Some user)
            (mkSearchBodyInput query filters sort (Some input))
          = Searches searchQuery
          /\ sb_from (buildSearchQuery searchQuery)
             = Some (requested_from input)
          /\ sb_size (buildSearchQuery searchQuery) = requested_size input)
  /\ (forall user query filters sort,
        exists searchQuery,
          search (Some user) (mkSearchBodyInput query filters sort None)
          = Searches searchQuery
          /\ sb_from (buildSearchQuery searchQuery) = None
          /\ sb_size (buildSearchQuery searchQuery) = 20%Q).
Proof.
  split; [exact PaginationSchema_valid |].
  split; [exact PaginationSchema_invalid |].
  split; [| split].
  - intros user query filters sort input Hout.
    destruct (PaginationSchema_invalid input Hout) as (issue & issues & Hp).
    exists (issue :: issues). unfold search, SearchQuerySchema. simpl.
    rewrite Hp. reflexivity.
  - intros user query filters sort input Hin.
    eexists. unfold search, SearchQuerySchema. simpl.
    rewrite (PaginationSchema_valid input Hin).
    split; [reflexivity |]. split; reflexivity.
  - intros user query filters sort. eexists.
    split; [reflexivity |]. split; reflexivity.
Qed.

Lemma pagination_bounds_witness :
  PaginationSchema (mkPaginationInput None None) = Valid (mkPagination 0 20)
  /\ (exists details,
        search (Some Sample.manager)
          (mkSearchBodyInput (Some "launch") None None
             (Some (mkPaginationInput (Some (-1)%Q) None)))
        = Status400 details)
  /\ (exists details,
        search (Some Sample.manager)
          (mkSearchBodyInput (Some "launch") None None
             (Some (mkPaginationInput None (Some 500%Q))))
        = Status400 details).
Proof.
  split; [| split].
  - apply (proj1 pagination_bounds (mkPaginationInput None None)).
    vm_compute. repeat split; discriminate.
  - apply (proj1 (proj2 (proj2 pagination_bounds))).
    vm_compute. intros (H & _). apply H. reflexivity.
  - apply (proj1 (proj2 (proj2 pagination_bounds))).
    vm_compute. intros (_ & _ & H). apply H. reflexivity.
Defined.

(* ===================================================================== *)
(** ** The event consumer and the synchroniser                             *)
(* ===================================================================== *)

(** Unfolds the monad and the methods down to the world they compute. *)
Ltac run_methods :=
  unfold after, outcome,
    consume_work_items, consume_users, consume_reindex,
    handleWorkItemEvent, handleWorkItemEvent_try,
    handleUserEvent, handleUserEvent_try,
    handleReindexRequest, handleReindexRequest_try,
    reindexWorkItem, indexDocument, updateDocument, deleteDocument,
    client.index, client.update, client.delete,
    JSON_parse, ack, Date_now,
    logger.debug, logger.info, logger.error, logger.write,
    try_catch, bind, ret, throw, set_es.

(** Splits on the next test the computation makes. *)
Ltac next_case :=
  match goal with
  | |- context [match ?x with _ => _ end] =>
      lazymatch x with
      | context [match _ with _ => _ end] => fail
      | _ => destruct x eqn:?
      end
  end.

Section ConsumerLemmas.

Variable indexPrefix : string.

Lemma consume_work_items_returns (msg : Message WorkItemEvent) (w : World) :
  outcome (consume_work_items indexPrefix (Some msg)) w = Ok tt
  /\ channel (after (consume_work_items indexPrefix (Some msg)) w)
     = Ack (msg_tag msg) :: channel w
  /\ clock (after (consume_work_items indexPrefix (Some msg)) w) = clock w.
Proof.
  run_methods. repeat (simpl; next_case); simpl; auto.
Qed.

Lemma consume_work_items_es (msg : Message WorkItemEvent) (w : World) :
  es (after (consume_work_items indexPrefix (Some msg)) w)
  = work_item_effect indexPrefix msg (clock w) (es w).
Proof.
  unfold work_item_effect. run_methods.
  repeat (simpl; next_case); simpl; try reflexivity; try congruence.
  all: try (symmetry; apply delete_id; congruence).
Qed.

End ConsumerLemmas.

Section SynchroniserLemmas.

Variable indexPrefix : string.

Lemma upsert_event_es (tag : nat) (created : bool) (workItem : WorkItem)
    (w : World) :
  es (after (consume_work_items indexPrefix
               (Some (upsert_event tag created workItem))) w)
  = <[(fullIndexName indexPrefix "work_items", wi_id workItem)
      := workItemDocument workItem]> (es w).
Proof.
  rewrite consume_work_items_es. destruct created; reflexivity.
Qed.


Lemma deleteDocument_missing (indexName id : string) (w : World) :
  es w !! (fullIndexName indexPrefix indexName, id) = None ->
  deleteDocument indexPrefix indexName (Some id) w
  = (Err NotFound,
     mkWorld (es w) (mkLog LError "Failed to delete document" :: logs w)
       (channel w) (clock w)).
Proof. intros H. run_methods. rewrite H. reflexivity. Qed.

Lemma deleteDocument_present (indexName id : string) (d : Document)
    (w : World) :
  es w !! (fullIndexName indexPrefix indexName, id) = Some d ->
  deleteDocument indexPrefix indexName (Some id) w
  = (Ok tt,
     mkWorld (delete (fullIndexName indexPrefix indexName, id) (es w))
       (mkLog LDebug "Document deleted" :: logs w) (channel w) (clock w)).
Proof. intros H. run_methods. rewrite H. reflexivity. Qed.

End SynchroniserLemmas.



(** C6. Consuming the same [work_item.created] or [work_item.updated]
    delivery a second time leaves the index as the first time left it;
    the document stored for a snapshot is [workItemDocument] of the
    snapshot, which reads nothing but the payload, and is the same after
    the second upsert as after the first. *)
Theorem upsert_is_idempotent (indexPrefix : string) (w : World) :
  (forall msg,
     msg_routingKey msg = "work_item.created"
     \/ msg_routingKey msg = "work_item.updated" ->
     es (consume_all indexPrefix [msg; msg] w)
     = es (consume_all indexPrefix [msg] w))
  /\ (forall tag created workItem,
        es (consume_all indexPrefix [upsert_event tag created workItem] w)
          !! (fullIndexName indexPrefix "work_items", wi_id workItem)
        = Some (workItemDocument workItem)
        /\ es (consume_all indexPrefix
                 [upsert_event tag created workItem;
                  upsert_event tag created workItem] w)
             !! (fullIndexName indexPrefix "work_items", wi_id workItem)
           = Some (workItemDocument workItem)).
Proof.
  split.
  - intros msg Hkey. unfold consume_all, fold_left.
    rewrite !consume_work_items_es. unfold work_item_effect.
    assert (Hup : (String.eqb (msg_routingKey msg) "work_item.created"
                   || String.eqb (msg_routingKey msg) "work_item.updated")%bool
                  = true)
      by (destruct Hkey as [-> | ->]; reflexivity).
    rewrite Hup.
    destruct (msg_content msg) as [eventData|]; [| reflexivity].
    destruct (ev_workItem eventData) as [workItem|]; [| reflexivity].
    apply insert_insert_eq.
  - intros tag created workItem. unfold consume_all, fold_left.
    rewrite !upsert_event_es. rewrite insert_insert_eq.
    split; apply lookup_insert_eq.
Qed.

Lemma upsert_is_idempotent_witness :
  es (consume_all "htma"
        [upsert_event 1 false Sample.launch_plan;
         upsert_event 1 false Sample.launch_plan] Sample.empty_world)
  = es (consume_all "htma"
          [upsert_event 1 false Sample.launch_plan] Sample.empty_world).
Proof.
  apply (proj1 (upsert_is_idempotent "htma" Sample.empty_world)
           (upsert_event 1 false Sample.launch_plan)).
  right. reflexivity.
Defined.

(** C2 fails as worded: the older snapshot, consumed second, replaces the
    newer one. *)
Lemma stale_snapshot_overwrites :
  ~ stale_write_rejected "htma" Sample.empty_world
      Sample.launch_plan Sample.launch_draft.
Proof.
  intros H. unfold stale_write_rejected in H.
  specialize (H eq_refl eq_refl). unfold consume_all, fold_left in H.
  rewrite !upsert_event_es in H.
  change (wi_id Sample.launch_draft) with (wi_id Sample.launch_plan) in H.
  rewrite lookup_insert_eq in H.
  injection H as H. discriminate H.
Qed.

(** C2, amended. The synchroniser compares no timestamps: after two
    snapshots of one id are consumed in order E1 then E2, the indexed
    document is the one of E2, the snapshot consumed last, whichever of
    the two is the older. *)
Theorem last_consumed_snapshot_wins (indexPrefix : string) (w : World)
    (tag1 tag2 : nat) (created1 created2 : bool) (e1 e2 : WorkItem) :
  wi_id e1 = wi_id e2 ->
  es (consume_all indexPrefix
        [upsert_event tag1 created1 e1; upsert_event tag2 created2 e2] w)
    !! (fullIndexName indexPrefix "work_items", wi_id e1)
  = Some (workItemDocument e2)
  /\ es (consume_all indexPrefix
           [upsert_event tag1 created1 e1; upsert_event tag2 created2 e2] w)
     = <[(fullIndexName indexPrefix "work_items", wi_id e2)
         := workItemDocument e2]> (es w).
Proof.
  intros Hid. unfold consume_all, fold_left.
  rewrite !upsert_event_es, Hid.
  split; [apply lookup_insert_eq | apply insert_insert_eq].
Qed.

Lemma last_consumed_snapshot_wins_witness :
  earlier (wi_updated_at Sample.launch_draft)
    (wi_updated_at Sample.launch_plan) = true
  /\ es (consume_all "htma"
           [upsert_event 1 true Sample.launch_plan;
            upsert_event 2 false Sample.launch_draft] Sample.empty_world)
     !! ("htma_work_items", "wi1")
     = Some (workItemDocument Sample.launch_draft).
Proof.
  split; [reflexivity |].
  apply (last_consumed_snapshot_wins "htma" Sample.empty_world 1 2 true false
           Sample.launch_plan Sample.launch_draft).
  reflexivity.
Defined.

Section AcknowledgeLemmas.

Variable indexPrefix : string.




End AcknowledgeLemmas.




(** C4 fails as worded: deleting an id that is not in the index raises
    the engine's not-found error. *)
Lemma delete_of_missing_raises :
  ~ delete_of_missing_succeeds "htma" Sample.empty_world "work_items" "wi1".
Proof.
  intros H. unfold delete_of_missing_succeeds in H.
  specialize (H (lookup_empty _)). unfold outcome in H.
  rewrite deleteDocument_missing in H by apply lookup_empty.
  discriminate H.
Qed.

(** C4, amended. [deleteDocument] returns what the engine's delete call
    returns and leaves the index as that call leaves it. After it the id
    is not in the index, and a second delete of the same id leaves the
    index as the first left it; the call succeeds when the id was in the
    index, and when it was not (so also every second time) it logs and
    raises the engine's not-found error. *)
Theorem delete_document_effect (indexPrefix indexName id : string)
    (w : World) :
  outcome (deleteDocument indexPrefix indexName (Some id)) w
  = outcome (client.delete (fullIndexName indexPrefix indexName) (Some id)) w
  /\ es (after (deleteDocument indexPrefix indexName (Some id)) w)
     = es (after (client.delete (fullIndexName indexPrefix indexName)
                    (Some id)) w)
  /\ es (after (deleteDocument indexPrefix indexName (Some id)) w)
     = delete (fullIndexName indexPrefix indexName, id) (es w)
  /\ (outcome (deleteDocument indexPrefix indexName (Some id)) w = Ok tt
      <-> is_Some (es w !! (fullIndexName indexPrefix indexName, id)))
  /\ (es w !! (fullIndexName indexPrefix indexName, id) = None ->
      outcome (deleteDocument indexPrefix indexName (Some id)) w
      = Err NotFound)
  /\ es (after (deleteDocument indexPrefix indexName (Some id))
           (after (deleteDocument indexPrefix indexName (Some id)) w))
     = es (after (deleteDocument indexPrefix indexName (Some id)) w)
  /\ outcome (deleteDocument indexPrefix indexName (Some id))
       (after (deleteDocument indexPrefix indexName (Some id)) w)
     = Err NotFound.
Proof.
  assert (Hgone :
    es (after (deleteDocument indexPrefix indexName (Some id)) w)
    = delete (fullIndexName indexPrefix indexName, id) (es w)).
  { unfold after.
    destruct (es w !! (fullIndexName indexPrefix indexName, id)) as [d|] eqn:Hd.
    - rewrite (deleteDocument_present indexPrefix indexName id d w Hd).
      reflexivity.
    - rewrite (deleteDocument_missing indexPrefix indexName id w Hd).
      simpl. symmetry. apply delete_id. exact Hd. }
  assert (Hnone :
    es (after (deleteDocument indexPrefix indexName (Some id)) w)
      !! (fullIndexName indexPrefix indexName, id) = None)
    by (rewrite Hgone; apply lookup_delete_eq).
  split; [| split].
  { run_methods. simpl.
    destruct (es w !! (fullIndexName indexPrefix indexName, id));
      reflexivity. }
  { run_methods. simpl.
    destruct (es w !! (fullIndexName indexPrefix indexName, id));
      reflexivity. }
  split; [exact Hgone |]. split; [| split; [| split]].
  - unfold outcome.
    destruct (es w !! (fullIndexName indexPrefix indexName, id)) as [d|] eqn:Hd.
    + rewrite (deleteDocument_present indexPrefix indexName id d w Hd).
      simpl. split; [eauto | reflexivity].
    + rewrite (deleteDocument_missing indexPrefix indexName id w Hd).
      simpl. split; [discriminate | intros [x Hx]; discriminate Hx].
  - intros Hd. unfold outcome.
    rewrite (deleteDocument_missing indexPrefix indexName id w Hd).
    reflexivity.
  - unfold after at 1.
    rewrite (deleteDocument_missing indexPrefix indexName id _ Hnone).
    reflexivity.
  - unfold outcome.
    rewrite (deleteDocument_missing indexPrefix indexName id _ Hnone).
    reflexivity.
Qed.

Lemma delete_document_effect_witness :
  outcome (deleteDocument "htma" "work_items" (Some "wi1")) Sample.empty_world
  = Err NotFound.
Proof.
  apply (proj1 (proj2 (proj2 (proj2 (proj2
           (delete_document_effect "htma" "work_items" "wi1"
              Sample.empty_world)))))).
  apply lookup_empty.
Defined.

(* ===================================================================== *)
(** ** Further properties of the synchroniser                              *)
(* ===================================================================== *)

Section StoreLemmas.

Variable indexPrefix : string.

Lemma consume_users_es (msg : Message UserEvent) (w : World) :
  es (after (consume_users indexPrefix (Some msg)) w)
  = user_effect indexPrefix msg (clock w) (es w).
Proof.
  unfold user_effect. run_methods.
  repeat (simpl; next_case); simpl; try reflexivity; try congruence.
  all: try (symmetry; apply delete_id; congruence).
Qed.

Lemma consume_reindex_es (msg : Message ReindexRequest) (w : World) :
  es (after (consume_reindex (Some msg)) w) = es w.
Proof.
  run_methods. repeat (simpl; next_case); simpl; reflexivity.
Qed.

Lemma append_cancel (p a b : string) : p +:+ a = p +:+ b -> a = b.
Proof.
  induction p as [|c p IH]; intros H.
  - exact H.
  - apply IH. cbn [String.append] in H. injection H as H. exact H.
Qed.

Lemma work_items_is_not_users :
  fullIndexName indexPrefix "work_items" <> fullIndexName indexPrefix "users".
Proof.
  unfold fullIndexName. intros H. apply append_cancel in H. discriminate H.
Qed.




End StoreLemmas.





(** X3. A user delivery changes nothing outside the users index, and a
    reindex request changes nothing at all: work-item documents survive
    both. *)
Theorem user_and_reindex_deliveries_frame (indexPrefix : string) (w : World) :
  (forall (msg : Message UserEvent) index id,
     index <> fullIndexName indexPrefix "users" ->
     es (after (consume_users indexPrefix (Some msg)) w) !! (index, id)
     = es w !! (index, id))
  /\ (forall (msg : Message UserEvent) id,
        es (after (consume_users indexPrefix (Some msg)) w)
          !! (fullIndexName indexPrefix "work_items", id)
        = es w !! (fullIndexName indexPrefix "work_items", id))
  /\ (forall msg : Message ReindexRequest,
        es (after (consume_reindex (Some msg)) w) = es w).
Proof.
  assert (Hframe : forall (msg : Message UserEvent) index id,
     index <> fullIndexName indexPrefix "users" ->
     es (after (consume_users indexPrefix (Some msg)) w) !! (index, id)
     = es w !! (index, id)).
  { intros msg index id Hne. rewrite consume_users_es. unfold user_effect.
    repeat next_case; try reflexivity.
    - apply lookup_insert_ne. intros Heq. injection Heq as Hi _.
      apply Hne. symmetry. exact Hi.
    - apply lookup_delete_ne. intros Heq. injection Heq as Hi _.
      apply Hne. symmetry. exact Hi. }
  split; [exact Hframe | split].
  - intros msg id. apply Hframe. apply work_items_is_not_users.
  - intros msg. apply consume_reindex_es.
Qed.

Lemma user_and_reindex_deliveries_frame_witness :
  es (after (consume_users "htma" (Some (user_delete_event 2 "wi1")))
        Sample.empty_world) !! ("htma_templates", "t9")
  = es Sample.empty_world !! ("htma_templates", "t9").
Proof.
  apply (proj1 (user_and_reindex_deliveries_frame "htma" Sample.empty_world)
           (user_delete_event 2 "wi1") "htma_templates" "t9").
  discriminate.
Defined.



(** X5. A snapshot that is indexed and then deleted by id is gone: after
    [work_item.created] (or [work_item.updated]) followed by
    [work_item.deleted] for the same id the index holds no document under
    that id and is otherwise as it was before the two deliveries. *)
Theorem upsert_then_delete (indexPrefix : string) (w : World)
    (tag1 tag2 : nat) (created : bool) (workItem : WorkItem) :
  es (consume_all indexPrefix
        [upsert_event tag1 created workItem;
         delete_event tag2 (wi_id workItem)] w)
    !! (fullIndexName indexPrefix "work_items", wi_id workItem) = None
  /\ es (consume_all indexPrefix
           [upsert_event tag1 created workItem;
            delete_event tag2 (wi_id workItem)] w)
     = delete (fullIndexName indexPrefix "work_items", wi_id workItem) (es w).
Proof.
  unfold consume_all, fold_left.
  rewrite consume_work_items_es, upsert_event_es.
  unfold work_item_effect, delete_event. simpl.
  rewrite delete_insert_eq. split; [apply lookup_delete_eq | reflexivity].
Qed.

(** X6. Consuming a [work_item.deleted] delivery a second time changes
    nothing: the index is as the first delivery left it, the second
    delivery is acknowledged, and its failure (the engine finds no
    document) is caught and logged. *)
Theorem delete_event_is_idempotent (indexPrefix : string) (w : World)
    (tag1 tag2 : nat) (id : string) :
  es (consume_all indexPrefix [delete_event tag1 id; delete_event tag2 id] w)
  = es (consume_all indexPrefix [delete_event tag1 id] w)
  /\ es (consume_all indexPrefix [delete_event tag1 id] w)
       !! (fullIndexName indexPrefix "work_items", id) = None
  /\ channel
       (consume_all indexPrefix [delete_event tag1 id; delete_event tag2 id] w)
     = Ack tag2 :: Ack tag1 :: channel w
  /\ hd_error
       (logs (consume_all indexPrefix
                [delete_event tag1 id; delete_event tag2 id] w))
     = Some (caught "Failed to handle work item event").
Proof.
  unfold consume_all, fold_left.
  assert (Hgone :
    es (after (consume_work_items indexPrefix (Some (delete_event tag1 id))) w)
      !! (fullIndexName indexPrefix "work_items", id) = None).
  { rewrite consume_work_items_es. unfold work_item_effect, delete_event.
    simpl. apply lookup_delete_eq. }
  split; [| split; [exact Hgone | split]].
  - rewrite (consume_work_items_es indexPrefix (delete_event tag2 id)).
    unfold work_item_effect at 1. simpl. apply delete_id. exact Hgone.
  - rewrite (proj1 (proj2 (consume_work_items_returns indexPrefix
                             (delete_event tag2 id) _))).
    rewrite (proj1 (proj2 (consume_work_items_returns indexPrefix
                             (delete_event tag1 id) w))).
    reflexivity.
  - revert Hgone.
    generalize (after (consume_work_items indexPrefix
                         (Some (delete_event tag1 id))) w).
    intros w1 Hgone. run_methods. simpl. rewrite Hgone. reflexivity.
Qed.


(** X8. A delivery whose payload cannot be parsed is dropped on each of
    the three queues: the index is untouched, one error entry is logged,
    and the delivery is acknowledged. *)
Theorem unparseable_payload_is_dropped (indexPrefix : string) (w : World)
    (tag : nat) (routingKey : string) :
  after (consume_work_items indexPrefix
           (Some (mkMessage tag routingKey None))) w
  = mkWorld (es w) (caught "Failed to handle work item event" :: logs w)
      (Ack tag :: channel w) (clock w)
  /\ after (consume_users indexPrefix
              (Some (mkMessage tag routingKey None))) w
     = mkWorld (es w) (caught "Failed to handle user event" :: logs w)
         (Ack tag :: channel w) (clock w)
  /\ after (consume_reindex (Some (mkMessage tag routingKey None))) w
     = mkWorld (es w) (caught "Failed to handle reindex request" :: logs w)
         (Ack tag :: channel w) (clock w).
Proof.
  repeat split.
Qed.

(** X9. A [user.created] or [user.updated] delivery stores the user
    document under the user's id in the users index, with exactly the
    permissions of the user's tenant and of the user itself; the stored
    update stamp is the snapshot's when it has a non-empty one, in which
    case the document does not depend on the clock, and is the clock
    otherwise; a [user.deleted] delivery for the id then removes the
    document. *)
Theorem user_upsert_effect (indexPrefix : string) (w : World)
    (tag : nat) (created : bool) (user : User) :
  es (after (consume_users indexPrefix (Some (user_event tag created user))) w)
    !! (fullIndexName indexPrefix "users", usr_id user)
  = Some (userDocument user (clock w))
  /\ doc_permissions (userDocument user (clock w))
     = ["tenant:" +:+ usr_tenant_id user; "user:" +:+ usr_id user]
  /\ (forall stamp now now',
        usr_updated_at user = Some stamp -> stamp <> "" ->
        doc_updatedAt (userDocument user now) = stamp
        /\ userDocument user now = userDocument user now')
  /\ (usr_updated_at user = None \/ usr_updated_at user = Some "" ->
      doc_updatedAt (userDocument user (clock w)) = clock w)
  /\ (forall tag',
        es (after (consume_users indexPrefix
                     (Some (user_delete_event tag' (usr_id user))))
              (after (consume_users indexPrefix
                        (Some (user_event tag created user))) w))
          !! (fullIndexName indexPrefix "users", usr_id user) = None).
Proof.
  assert (Hup :
    es (after (consume_users indexPrefix
                 (Some (user_event tag created user))) w)
    = <[(fullIndexName indexPrefix "users", usr_id user)
        := userDocument user (clock w)]> (es w)).
  { rewrite consume_users_es. destruct created; reflexivity. }
  split; [rewrite Hup; apply lookup_insert_eq |].
  split; [reflexivity |]. split; [| split].
  - intros stamp now now' Hs Hne. unfold userDocument. rewrite Hs. simpl.
    destruct stamp; [congruence |]. split; reflexivity.
  - intros [H | H]; unfold userDocument; rewrite H; reflexivity.
  - intros tag'. rewrite consume_users_es. unfold user_effect. simpl.
    apply lookup_delete_eq.
Qed.

Lemma user_upsert_effect_witness :
  doc_updatedAt
    (userDocument
       (mkUser "u42" "t1" "Ada" "ada@example.org" "Manager" None None
          "2024-04-01T00:00:00.000Z" None None None None)
       (clock Sample.empty_world))
  = "2024-05-03T00:00:00.000Z".
Proof.
  apply (proj1 (proj2 (proj2 (proj2
           (user_upsert_effect "htma" Sample.empty_world 1 true
              (mkUser "u42" "t1" "Ada" "ada@example.org" "Manager" None None
                 "2024-04-01T00:00:00.000Z" None None None None)))))).
  left. reflexivity.
Defined.

(* ===================================================================== *)
(** ** Further properties of the query compiler                            *)
(* ===================================================================== *)

Section FilterLemmas.

Lemma in_terms_filter (field field' : string) (values : list string)
    (o : option (list string)) :
  In (terms field values) (terms_filter field' o)
  <-> field = field' /\ o = Some values /\ values <> [].
Proof.
  unfold terms_filter. destruct o as [[|v vs]|]; simpl.
  - split; [tauto | intros (_ & H & Hne); injection H as <-; congruence].
  - split.
    + intros [H | []]. injection H as <- <-. repeat split; discriminate.
    + intros (-> & H & _). injection H as <-. left. reflexivity.
  - split; [tauto | intros (_ & H & _); discriminate H].
Qed.

Lemma filter_clauses (query : SearchQuery) :
  sb_filter (buildSearchQuery query)
  = term "tenantId" (q_tenantId query)
    :: match q_filters query with
       | Some filters =>
           terms_filter "type" (f_type filters)
           ++ terms_filter "workItemType" (f_workItemType filters)
           ++ terms_filter "status" (f_status filters)
           ++ terms_filter "priority" (f_priority filters)
           ++ terms_filter "assignedTo" (f_assignedTo filters)
           ++ terms_filter "tags" (f_tags filters)
           ++ date_filter (f_dateRange filters)
       | None => []
       end.
Proof.
  unfold buildSearchQuery.
  destruct (q_pagination query); destruct (q_filters query); reflexivity.
Qed.

Lemma terms_filter_length (field : string) (o : option (list string)) :
  length (terms_filter field o) <= 1.
Proof. destruct o as [[|v vs]|]; simpl; lia. Qed.

End FilterLemmas.

(** X10. The compiled filter holds a [terms] clause on a field exactly
    when the request lists at least one value for that facet (type,
    workItemType, status, priority, assignedTo, tags), and the clause
    lists the request's values; an absent or empty facet adds no clause,
    so no [terms] clause is ever empty. *)
Theorem facet_filters_exact (query : SearchQuery) (field : string)
    (values : list string) :
  In (terms field values) (sb_filter (buildSearchQuery query))
  <-> values <> []
      /\ exists filters,
           q_filters query = Some filters /\ facet filters field = Some values.
Proof.
  rewrite filter_clauses. split.
  - intros [H | H]; [discriminate H |].
    destruct (q_filters query) as [filters|]; [| destruct H].
    rewrite !in_app_iff, !in_terms_filter in H.
    destruct H as [H | [H | [H | [H | [H | [H | H]]]]]];
      try (destruct H as (-> & Hf & Hne); split; [exact Hne |];
           exists filters; split; [reflexivity | exact Hf]).
    unfold date_filter in H. destruct (f_dateRange filters); simpl in H.
    + destruct H as [H | []]. discriminate H.
    + destruct H.
  - intros (Hne & filters & Hq & Hf). right. rewrite Hq.
    rewrite !in_app_iff, !in_terms_filter. unfold facet in Hf.
    repeat match type of Hf with
           | (if String.eqb field ?name then _ else _) = _ =>
               destruct (String.eqb_spec field name) as [-> | _];
                 [tauto |]
           end.
    discriminate Hf.
Qed.

(** X11. The tenant term is the only [term] clause of the compiled
    filter: whatever filters the client sends, they add [terms] and
    [range] clauses only, at most seven of them, and never a text match. *)
Theorem only_the_tenant_term (query : SearchQuery) :
  (forall field value,
     In (term field value) (sb_filter (buildSearchQuery query)) ->
     field = "tenantId" /\ value = q_tenantId query)
  /\ (forall c,
        In c (sb_filter (buildSearchQuery query)) ->
        c <> match_all /\ forall t fs ty fz, c <> multi_match t fs ty fz)
  /\ 1 <= length (sb_filter (buildSearchQuery query)) <= 8.
Proof.
  rewrite filter_clauses.
  assert (Hshape : forall c,
    In c match q_filters query with
         | Some filters =>
             terms_filter "type" (f_type filters)
             ++ terms_filter "workItemType" (f_workItemType filters)
             ++ terms_filter "status" (f_status filters)
             ++ terms_filter "priority" (f_priority filters)
             ++ terms_filter "assignedTo" (f_assignedTo filters)
             ++ terms_filter "tags" (f_tags filters)
             ++ date_filter (f_dateRange filters)
         | None => []
         end ->
    (exists f vs, c = terms f vs) \/ (exists f g l, c = range f g l)).
  { intros c. destruct (q_filters query) as [filters|]; [| intros []].
    rewrite !in_app_iff. unfold terms_filter, date_filter.
    intros H.
    repeat (destruct H as [H | H];
            [repeat match type of H with
                    | In _ match ?o with _ => _ end => destruct o
                    end; simpl in H;
             try contradiction; destruct H as [<- | []]; eauto |]).
    destruct (f_dateRange filters); simpl in H; [| destruct H].
    destruct H as [<- | []]. right. eauto. }
  split; [| split].
  - intros field value [H | H]; [injection H as <- <-; split; reflexivity |].
    destruct (Hshape _ H) as [(f & vs & Hc) | (f & g & l & Hc)];
      discriminate Hc.
  - intros c [<- | H]; [split; [discriminate | intros; discriminate] |].
    destruct (Hshape _ H) as [(f & vs & ->) | (f & g & l & ->)];
      split; try discriminate; intros; discriminate.
  - simpl. destruct (q_filters query) as [filters|]; simpl; [| lia].
    rewrite !length_app.
    pose proof (terms_filter_length "type" (f_type filters)).
    pose proof (terms_filter_length "workItemType" (f_workItemType filters)).
    pose proof (terms_filter_length "status" (f_status filters)).
    pose proof (terms_filter_length "priority" (f_priority filters)).
    pose proof (terms_filter_length "assignedTo" (f_assignedTo filters)).
    pose proof (terms_filter_length "tags" (f_tags filters)).
    assert (length (date_filter (f_dateRange filters)) <= 1)
      by (destruct (f_dateRange filters); simpl; lia).
    lia.
Qed.


(** X13. The compiled query and the indices searched do not depend on
    who asks: the same request made under another user id and role, in
    the same tenant, compiles to the same engine request. *)
Theorem query_ignores_user_identity (indexPrefix userId userRole : string)
    (query : SearchQuery) :
  search_request indexPrefix (as_user userId userRole query)
  = search_request indexPrefix query.
Proof.
  unfold search_request, buildSearchQuery, as_user. simpl. reflexivity.
Qed.

(** X14. The compiled query always sorts: by the keys of the request in
    the order given when it lists at least one, and by score then by
    update stamp, both descending, when the sort is absent or empty. *)
Theorem sort_clause (query : SearchQuery) :
  sb_sort (buildSearchQuery query) <> []
  /\ (q_sort query = None \/ q_sort query = Some [] ->
      sb_sort (buildSearchQuery query)
      = [("_score", desc); ("updatedAt", desc)])
  /\ (forall keys,
        q_sort query = Some keys -> keys <> [] ->
        sb_sort (buildSearchQuery query)
        = map (fun s => (sort_field s, sort_order s)) keys).
Proof.
  unfold buildSearchQuery.
  destruct (q_pagination query); simpl;
    (split; [| split]);
    try (destruct (q_sort query) as [[|s ss]|]; simpl; discriminate);
    try (intros [-> | ->]; reflexivity);
    try (intros keys -> Hne; destruct keys; [congruence | reflexivity]).
Qed.

Lemma sort_clause_witness :
  sb_sort (buildSearchQuery
             (mkSearchQuery "" None (Some []) None "t1" "u1" "Manager"))
  = [("_score", desc); ("updatedAt", desc)].
Proof.
  apply (proj1 (proj2 (sort_clause
           (mkSearchQuery "" None (Some []) None "t1" "u1" "Manager")))).
  right. reflexivity.
Defined.

Section IndexNameLemmas.

Variable indexPrefix : string.

Lemma fullIndexName_inj (a b : string) :
  fullIndexName indexPrefix a = fullIndexName indexPrefix b -> a = b.
Proof.
  unfold fullIndexName. intros H. apply append_cancel in H.
  cbn [String.append] in H. injection H as H. exact H.
Qed.

Lemma all_indices_distinct :
  NoDup (map (fullIndexName indexPrefix) allIndices).
Proof.
  apply NoDup_fmap_2; [intros a b; apply fullIndexName_inj |].
  apply (bool_decide_unpack _). vm_compute. exact I.
Qed.

End IndexNameLemmas.

(** X15. Whatever the type filter, a search runs against at least one
    index, never twice against the same one, and only against the three
    indices of the service, taken in the order work_items, users,
    templates. *)
Theorem search_indices_shape (indexPrefix : string)
    (types : option (list string)) :
  getSearchIndices indexPrefix types <> []
  /\ NoDup (getSearchIndices indexPrefix types)
  /\ sublist (getSearchIndices indexPrefix types)
       (map (fullIndexName indexPrefix) allIndices).
Proof.
  pose proof (all_indices_distinct indexPrefix) as Hnd.
  assert (Hsub : sublist (getSearchIndices indexPrefix types)
                   (map (fullIndexName indexPrefix) allIndices)).
  { destruct types as [[|t ts]|]; try reflexivity.
    unfold getSearchIndices, allIndices.
    destruct (JS.includes (t :: ts) "work_item");
      destruct (JS.includes (t :: ts) "user");
      destruct (JS.includes (t :: ts) "template"); simpl;
      repeat first [reflexivity | apply sublist_skip | apply sublist_cons
                   | apply sublist_nil]. }
  split; [| split; [| exact Hsub]].
  - destruct types as [[|t ts]|]; try discriminate.
    unfold getSearchIndices, allIndices.
    destruct (JS.includes (t :: ts) "work_item");
      destruct (JS.includes (t :: ts) "user");
      destruct (JS.includes (t :: ts) "template"); simpl; discriminate.
  - exact (sublist_NoDup _ _ Hnd Hsub).
Qed.

Section PageLemmas.

Lemma PaginationSchema_sound (input : PaginationInput) (p : Pagination) :
  PaginationSchema input = Valid p ->
  (0 <= pg_from p)%Q /\ (1 <= pg_size p)%Q /\ (pg_size p <= 100)%Q.
Proof.
  unfold PaginationSchema, check_min, check_max.
  destruct (Qle_bool 0 (default 0%Q (in_from input))) eqn:Hf;
    destruct (Qle_bool 1 (default 20%Q (in_size input))) eqn:Hlo;
    destruct (Qle_bool (default 20%Q (in_size input)) 100) eqn:Hhi;
    simpl; intros H; try discriminate H.
  injection H as <-. simpl. rewrite <- !Qle_bool_iff. auto.
Qed.

End PageLemmas.

(** X16. Every query that the controller hands to the engine asks for a
    page of at least 1 and at most 100 documents, from an offset that is
    either unset or not negative. *)
Theorem compiled_page_within_bounds (user : option JWTPayload)
    (body : SearchBodyInput) (searchQuery : SearchQuery) :
  search user body = Searches searchQuery ->
  (1 <= sb_size (buildSearchQuery searchQuery))%Q
  /\ (sb_size (buildSearchQuery searchQuery) <= 100)%Q
  /\ (forall from,
        sb_from (buildSearchQuery searchQuery) = Some from -> (0 <= from)%Q).
Proof.
  unfold search, SearchQuerySchema.
  destruct (in_pagination body) as [input|].
  - destruct (PaginationSchema input) as [p|issues] eqn:Hp; [| discriminate].
    destruct user as [u|]; [| discriminate].
    intros H. injection H as <-. unfold buildSearchQuery. simpl.
    destruct (PaginationSchema_sound input p Hp) as (Hf & Hlo & Hhi).
    repeat split; try assumption.
    intros from H. injection H as <-. exact Hf.
  - destruct user as [u|]; [| discriminate].
    intros H. injection H as <-. unfold buildSearchQuery. simpl.
    repeat split; try discriminate.
Qed.

Lemma compiled_page_within_bounds_witness :
  (1 <= sb_size (buildSearchQuery Sample.launch_query))%Q.
Proof.
  apply (compiled_page_within_bounds (Some Sample.manager)
           (mkSearchBodyInput (Some "launch") None None None)
           Sample.launch_query).
  reflexivity.
Defined.

(* ===================================================================== *)
(** ** The middleware, the endpoints and the routes                        *)
(* ===================================================================== *)

(** Unfolds the middleware, the endpoints and the routes. *)
Ltac run_routes :=
  unfold SearchServiceApp.post_search, SearchServiceApp.get_suggest,
    SearchServiceApp.get_stats, SearchServiceApp.post_index,
    SearchServiceApp.get_health,
    SearchServiceApp.authenticated, SearchServiceApp.behind,
    authMiddleware.authMiddleware, authMiddleware.requireRole,
    authMiddleware.requireSameTenant,
    SearchEndpoints.search, SearchEndpoints.suggest, SearchEndpoints.stats,
    SearchEndpoints.indexDocument, SearchEndpoints.health,
    ElasticsearchService.search, ElasticsearchService.getSuggestions,
    ElasticsearchService.getIndexStats,
    logger.warn;
  run_methods.

Section MiddlewareLemmas.

Lemma append_cons (c : ascii) (p t : string) :
  String c p +:+ t = String c (p +:+ t).
Proof. reflexivity. Qed.

Lemma prefix_cons (c c' : ascii) (p h : string) :
  String.prefix (String c p) (String c' h)
  = if ascii_dec c c' then String.prefix p h else false.
Proof. reflexivity. Qed.

Lemma prefix_split (p h : string) :
  String.prefix p h = true -> h = p +:+ JS.substring (String.length p) h.
Proof.
  revert h. induction p as [|c p IH]; intros h.
  - reflexivity.
  - destruct h as [|c' h]; [discriminate |].
    rewrite prefix_cons.
    destruct (ascii_dec c c') as [<- | _]; [| discriminate].
    intros H. rewrite append_cons. cbn [String.length JS.substring].
    f_equal. apply IH. exact H.
Qed.

Lemma prefix_append (p t : string) : String.prefix p (p +:+ t) = true.
Proof.
  induction p as [|c p IH]; [destruct t; reflexivity |].
  rewrite append_cons, prefix_cons.
  destruct (ascii_dec c c) as [_ | Hne]; [exact IH | congruence].
Qed.

Lemma substring_append (p t : string) :
  JS.substring (String.length p) (p +:+ t) = t.
Proof.
  induction p as [|c p IH]; [reflexivity |].
  rewrite append_cons. cbn [String.length JS.substring]. exact IH.
Qed.

Lemma bearer_header (h : string) :
  JS.startsWith h "Bearer " = true <-> h = "Bearer " +:+ JS.substring 7 h.
Proof.
  unfold JS.startsWith. split.
  - apply (prefix_split "Bearer " h).
  - intros ->. apply (prefix_append "Bearer ").
Qed.

End MiddlewareLemmas.

Arguments JS.substring : simpl never.
Arguments JS.startsWith : simpl never.

Lemma authMiddleware_on_header
    (jwt_verify : string -> string -> option JWTPayload)
    (jwtSecret h : string) (w : World) :
  authMiddleware.authMiddleware jwt_verify jwtSecret (Some h) w
  = if (JS.truthy h && JS.startsWith h "Bearer ")%bool then
      match jwt_verify (JS.substring 7 h) jwtSecret with
      | Some payload =>
          (Ok (next payload),
           mkWorld (es w) (mkLog LDebug "User authenticated" :: logs w)
             (channel w) (clock w))
      | None =>
          (Ok (respond 401 "Invalid or expired token"),
           mkWorld (es w) (mkLog LWarn "Invalid JWT token" :: logs w)
             (channel w) (clock w))
      end
    else (Ok (respond 401 "Authorization header required"), w).
Proof.
  run_routes. simpl.
  destruct (JS.truthy h); destruct (JS.startsWith h "Bearer "); simpl;
    try reflexivity.
  destruct (jwt_verify (JS.substring 7 h) jwtSecret); reflexivity.
Qed.

Lemma authMiddleware_on_bearer
    (jwt_verify : string -> string -> option JWTPayload)
    (jwtSecret token : string) (w : World) :
  authMiddleware.authMiddleware jwt_verify jwtSecret
    (Some ("Bearer " +:+ token)) w
  = match jwt_verify token jwtSecret with
    | Some payload =>
        (Ok (next payload),
         mkWorld (es w) (mkLog LDebug "User authenticated" :: logs w)
           (channel w) (clock w))
    | None =>
        (Ok (respond 401 "Invalid or expired token"),
         mkWorld (es w) (mkLog LWarn "Invalid JWT token" :: logs w)
           (channel w) (clock w))
    end.
Proof.
  rewrite authMiddleware_on_header.
  assert (Hs : JS.startsWith ("Bearer " +:+ token) "Bearer " = true)
    by apply (prefix_append "Bearer ").
  assert (Hsub : JS.substring 7 ("Bearer " +:+ token) = token)
    by apply (substring_append "Bearer ").
  rewrite Hs, Hsub. reflexivity.
Qed.

(** X17. [authMiddleware] lets a request through exactly when its
    authorization header is [Bearer ] followed by a token that
    [jwt.verify] accepts, and then the user it leaves on the request is
    the verified payload of that token; every other request is answered
    401, and in no case is an error raised or the index touched. *)
Theorem bearer_token_is_verified
    (jwt_verify : string -> string -> option JWTPayload) (jwtSecret : string)
    (authorization : option string) (w : World) :
  (forall payload,
     outcome (authMiddleware.authMiddleware jwt_verify jwtSecret authorization)
       w = Ok (next payload)
     <-> exists token,
           authorization = Some ("Bearer " +:+ token)
           /\ jwt_verify token jwtSecret = Some payload)
  /\ (exists step,
        outcome (authMiddleware.authMiddleware jwt_verify jwtSecret
                   authorization) w = Ok step
        /\ ((exists payload, step = next payload)
            \/ exists error, step = respond 401 error))
  /\ es (after (authMiddleware.authMiddleware jwt_verify jwtSecret
                  authorization) w) = es w.
Proof.
  split; [| split].
  - intros payload. split.
    + destruct authorization as [h|]; [| discriminate].
      unfold outcome. rewrite authMiddleware_on_header.
      destruct (JS.truthy h) eqn:Ht; simpl; [| discriminate].
      destruct (JS.startsWith h "Bearer ") eqn:Hb; simpl; [| discriminate].
      apply bearer_header in Hb.
      destruct (jwt_verify (JS.substring 7 h) jwtSecret) as [p|] eqn:Hv;
        simpl; [| discriminate].
      intros H. injection H as <-.
      exists (JS.substring 7 h). split; [congruence | exact Hv].
    + intros (token & -> & Hv). unfold outcome.
      rewrite authMiddleware_on_bearer, Hv. reflexivity.
  - destruct authorization as [h|]; [| eexists; split; [reflexivity | eauto]].
    unfold outcome. rewrite authMiddleware_on_header.
    destruct (JS.truthy h && JS.startsWith h "Bearer ")%bool;
      [destruct (jwt_verify (JS.substring 7 h) jwtSecret) |];
      eexists; (split; [reflexivity | eauto]).
  - destruct authorization as [h|]; [| reflexivity].
    unfold after. rewrite authMiddleware_on_header.
    destruct (JS.truthy h && JS.startsWith h "Bearer ")%bool;
      [destruct (jwt_verify (JS.substring 7 h) jwtSecret) |]; reflexivity.
Qed.

Lemma bearer_token_is_verified_witness :
  outcome
    (authMiddleware.authMiddleware
       (fun token secret =>
          if String.eqb token "abc" then Some Sample.manager else None)
       "htma-search-secret-key" (Some "Bearer abc")) Sample.empty_world
  = Ok (next Sample.manager).
Proof.
  apply (proj1 (bearer_token_is_verified
                  (fun token secret =>
                     if String.eqb token "abc" then Some Sample.manager
                     else None)
                  "htma-search-secret-key" (Some "Bearer abc")
                  Sample.empty_world)).
  exists "abc". split; reflexivity.
Defined.

Section EndpointLemmas.

Variable indexPrefix : string.

Lemma search_keeps_token_tenant (user : JWTPayload) (body : SearchBodyInput)
    (searchQuery : SearchQuery) :
  SearchController.search (Some user) body = Searches searchQuery ->
  q_tenantId searchQuery = jwt_tenantId user.
Proof.
  unfold SearchController.search.
  destruct (SearchQuerySchema body); [| discriminate].
  intros H. injection H as <-. reflexivity.
Qed.

Lemma mapM_stats (parseInt : string -> option Z) (rows : list CatIndex)
    (w : World) :
  mapM (fun index =>
          now <- Date_now ;;
          ret (mkIndexStats (cat_index index)
                 (parseInt (JS.or_else (cat_docs_count index) "0"))
                 (JS.or_else (cat_store_size index) "0b")
                 (cat_health index) now)) rows w
  = (Ok (map (stats_of_row parseInt (clock w)) rows), w).
Proof.
  induction rows as [|row rows IH]; [reflexivity |].
  cbn [mapM]. unfold bind at 1 2. unfold Date_now at 1. unfold bind at 1.
  unfold ret at 1. rewrite IH. reflexivity.
Qed.

Lemma getIndexStats_result (client_cat_indices : string -> M (list CatIndex))
    (parseInt : string -> option Z) (w : World) :
  ElasticsearchService.getIndexStats indexPrefix client_cat_indices parseInt w
  = match client_cat_indices (indexPrefix +:+ "_*") w with
    | (Ok rows, w') => (Ok (map (stats_of_row parseInt (clock w')) rows), w')
    | (Err _, w') => (Ok [], logged (caught "Failed to get index stats") w')
    end.
Proof.
  unfold ElasticsearchService.getIndexStats, try_catch, bind at 1.
  destruct (client_cat_indices (indexPrefix +:+ "_*") w) as [[rows|e] w'].
  - rewrite mapM_stats. reflexivity.
  - reflexivity.
Qed.

Lemma getSuggestions_result
    (client_suggest : string -> SuggestBody -> M SuggestResponse)
    (query tenantId : string) (w : World) :
  ElasticsearchService.getSuggestions indexPrefix client_suggest query
    tenantId w
  = match client_suggest (indexPrefix +:+ "_*")
            (ElasticsearchService.suggestBody query tenantId) w with
    | (Ok response, w') => (Ok (map so_text (first_options response)), w')
    | (Err _, w') => (Ok [], logged (caught "Failed to get suggestions") w')
    end.
Proof.
  unfold ElasticsearchService.getSuggestions, try_catch, bind.
  destruct (client_suggest (indexPrefix +:+ "_*")
              (ElasticsearchService.suggestBody query tenantId) w)
    as [[response|e] w']; reflexivity.
Qed.

End EndpointLemmas.

(** X18. The search route consults the engine only with queries that
    carry the tenant of the verified token: two engines that answer
    alike every query whose filter holds that tenant term give the same
    answer and the same world, for every authorization header and every
    request body; without a valid token the engine is not consulted. *)
Theorem search_route_is_tenant_scoped (indexPrefix : string)
    (engine engine' : list string -> SearchBody -> M SearchResponse)
    (now_ms : M Q)
    (jwt_verify : string -> string -> option JWTPayload) (jwtSecret : string)
    (authorization : option string) (body : SearchBodyInput) (w : World) :
  (forall token payload,
     authorization = Some ("Bearer " +:+ token) ->
     jwt_verify token jwtSecret = Some payload ->
     forall indices searchBody w',
       In (term "tenantId" (jwt_tenantId payload)) (sb_filter searchBody) ->
       engine indices searchBody w' = engine' indices searchBody w') ->
  SearchServiceApp.post_search indexPrefix engine now_ms jwt_verify jwtSecret
    authorization body w
  = SearchServiceApp.post_search indexPrefix engine' now_ms jwt_verify
      jwtSecret authorization body w.
Proof.
  intros Hagree.
  unfold SearchServiceApp.post_search, SearchServiceApp.authenticated,
    SearchServiceApp.behind, bind.
  destruct authorization as [h|]; [| reflexivity].
  rewrite authMiddleware_on_header.
  destruct (JS.truthy h) eqn:Ht; simpl; [| reflexivity].
  destruct (JS.startsWith h "Bearer ") eqn:Hb; simpl; [| reflexivity].
  apply bearer_header in Hb.
  destruct (jwt_verify (JS.substring 7 h) jwtSecret) as [payload|] eqn:Hv;
    [| reflexivity].
  assert (Hengine : forall indices searchBody w',
            In (term "tenantId" (jwt_tenantId payload)) (sb_filter searchBody) ->
            engine indices searchBody w' = engine' indices searchBody w')
    by (apply (Hagree (JS.substring 7 h)); [congruence | exact Hv]).
  unfold SearchEndpoints.search.
  destruct (SearchController.search (Some payload) body)
    as [details | | searchQuery] eqn:Hs; try reflexivity.
  apply search_keeps_token_tenant in Hs.
  unfold ElasticsearchService.search, try_catch, bind.
  destruct (now_ms _) as [[startTime|e] w1]; [| reflexivity].
  rewrite Hengine; [reflexivity |].
  destruct (filter_clauses_head searchQuery) as [rest ->].
  rewrite Hs. left. reflexivity.
Qed.

Lemma search_route_is_tenant_scoped_witness :
  SearchServiceApp.post_search "htma"
    (fun _ _ => ret (mkSearchResponse [] total_missing None)) (ret 0%Q)
    (fun _ _ => Some Sample.manager) "secret" (Some "Bearer abc")
    (mkSearchBodyInput None None None None) Sample.empty_world
  = SearchServiceApp.post_search "htma"
      (fun _ searchBody =>
         if existsb
              (fun c =>
                 match c with
                 | term field value =>
                     (String.eqb field "tenantId" && String.eqb value "t1")%bool
                 | _ => false
                 end) (sb_filter searchBody)
         then ret (mkSearchResponse [] total_missing None)
         else throw NotFound)
      (ret 0%Q)
      (fun _ _ => Some Sample.manager) "secret" (Some "Bearer abc")
      (mkSearchBodyInput None None None None) Sample.empty_world.
Proof.
  apply search_route_is_tenant_scoped.
  intros token payload _ Hv indices searchBody w' Hin.
  injection Hv as <-.
  replace (existsb _ (sb_filter searchBody)) with true; [reflexivity |].
  symmetry. apply existsb_exists.
  exists (term "tenantId" "t1"). split; [exact Hin | reflexivity].
Defined.

(** X19. The suggest endpoint asks the engine for completions of the
    given prefix under the tenant of the requesting user and answers with
    the texts of the options of the first suggestion entry; when the
    engine call raises, the endpoint still answers successfully, with no
    suggestions, after logging the failure; a missing, empty or
    non-string [q] is answered 400 without consulting the engine; the
    endpoint never answers 500. *)
Theorem suggest_fails_soft (indexPrefix : string)
    (client_suggest : string -> SuggestBody -> M SuggestResponse)
    (user : JWTPayload) (w : World) :
  (forall query,
     query <> "" ->
     SearchEndpoints.suggest indexPrefix client_suggest (Some user)
       (Some (qp_string query)) w
     = match client_suggest (indexPrefix +:+ "_*")
               (mkSuggestBody query "title.suggest" 10
                  [term "tenantId" (jwt_tenantId user)] 0) w with
       | (Ok response, w') =>
           (Ok (success (map so_text (first_options response))), w')
       | (Err _, w') =>
           (Ok (success []), logged (caught "Failed to get suggestions") w')
       end)
  /\ (forall q,
        q = None \/ q = Some (qp_string "") \/ q = Some qp_other ->
        SearchEndpoints.suggest indexPrefix client_suggest (Some user) q w
        = (Ok (failure 400 false SearchEndpoints.q_is_required), w))
  /\ (forall user' q,
        exists reply,
          outcome (SearchEndpoints.suggest indexPrefix client_suggest user' q)
            w = Ok reply
          /\ forall marked error, reply <> failure 500 marked error).
Proof.
  assert (Hquery : forall query,
    query <> "" ->
    SearchEndpoints.suggest indexPrefix client_suggest (Some user)
      (Some (qp_string query)) w
    = match client_suggest (indexPrefix +:+ "_*")
              (mkSuggestBody query "title.suggest" 10
                 [term "tenantId" (jwt_tenantId user)] 0) w with
      | (Ok response, w') =>
          (Ok (success (map so_text (first_options response))), w')
      | (Err _, w') =>
          (Ok (success []), logged (caught "Failed to get suggestions") w')
      end).
  { intros query Hne. unfold SearchEndpoints.suggest.
    destruct query as [|c query]; [congruence |].
    cbn [JS.truthy]. unfold try_catch, bind.
    rewrite getSuggestions_result.
    unfold ElasticsearchService.suggestBody.
    destruct (client_suggest _ _ w) as [[response|e] w']; reflexivity. }
  split; [exact Hquery | split].
  - intros q [-> | [-> | ->]]; reflexivity.
  - intros [u|] q; [| eexists; split; [reflexivity | discriminate]].
    destruct q as [[[|c query]|]|];
      try (eexists; split; [reflexivity | discriminate]).
    unfold outcome, SearchEndpoints.suggest.
    cbn [JS.truthy]. unfold try_catch, bind.
    rewrite getSuggestions_result.
    destruct (client_suggest _ _ w) as [[response|e] w'];
      eexists; (split; [reflexivity | discriminate]).
Qed.

Lemma suggest_fails_soft_witness :
  SearchEndpoints.suggest "htma" (fun _ _ => throw NotFound)
    (Some Sample.manager) (Some (qp_string "lau")) Sample.empty_world
  = (Ok (success []),
     logged (caught "Failed to get suggestions") Sample.empty_world).
Proof.
  apply (proj1 (suggest_fails_soft "htma" (fun _ _ => throw NotFound)
                  Sample.manager Sample.empty_world) "lau").
  discriminate.
Defined.

(** X20. The health endpoint always reports the service healthy and the
    engine connected, with status 200: it counts the rows that the engine
    lists, and when the engine call raises it reports zero indices
    instead of an unhealthy service. *)
Theorem health_always_reports_healthy (indexPrefix : string)
    (client_cat_indices : string -> M (list CatIndex))
    (parseInt : string -> option Z) (w : World) :
  (forall rows w',
     client_cat_indices (indexPrefix +:+ "_*") w = (Ok rows, w') ->
     SearchServiceApp.get_health indexPrefix client_cat_indices parseInt w
     = (Ok (mkHealthReport 200 "healthy" (clock w') true
              (Some (length rows))), w'))
  /\ (forall e w',
        client_cat_indices (indexPrefix +:+ "_*") w = (Err e, w') ->
        SearchServiceApp.get_health indexPrefix client_cat_indices parseInt w
        = (Ok (mkHealthReport 200 "healthy" (clock w') true (Some 0)),
           logged (caught "Failed to get index stats") w'))
  /\ (exists report,
        outcome (SearchServiceApp.get_health indexPrefix client_cat_indices
                   parseInt) w = Ok report
        /\ hr_code report = 200 /\ hr_connected report = true).
Proof.
  unfold SearchServiceApp.get_health, SearchEndpoints.health, outcome,
    try_catch, bind.
  rewrite getIndexStats_result.
  destruct (client_cat_indices (indexPrefix +:+ "_*") w) as [[rows|e] w0].
  - split; [| split].
    + intros rows' w' H. injection H as <- <-.
      unfold Date_now, ret. rewrite length_map. reflexivity.
    + intros e w' H. discriminate H.
    + eexists. simpl. split; [reflexivity | split; reflexivity].
  - split; [| split].
    + intros rows w' H. discriminate H.
    + intros e' w' H. injection H as _ <-. reflexivity.
    + eexists. simpl. split; [reflexivity | split; reflexivity].
Qed.

Lemma health_always_reports_healthy_witness :
  SearchServiceApp.get_health "htma" (fun _ => throw NotFound)
    (fun _ => None) Sample.empty_world
  = (Ok (mkHealthReport 200 "healthy" "2024-05-03T00:00:00.000Z" true
           (Some 0)),
     logged (caught "Failed to get index stats") Sample.empty_world).
Proof.
  apply (proj1 (proj2 (health_always_reports_healthy "htma"
                         (fun _ => throw NotFound) (fun _ => None)
                         Sample.empty_world)) NotFound Sample.empty_world).
  reflexivity.
Defined.

Section GateLemmas.

Lemma requireRole_result (allowedRoles : list string)
    (user : option JWTPayload) (w : World) :
  authMiddleware.requireRole allowedRoles user w
  = match user with
    | None => (Ok (respond 401 "Authentication required"), w)
    | Some u =>
        if JS.includes allowedRoles (jwt_role u) then (Ok (next tt), w)
        else (Ok (respond 403 "Insufficient permissions"),
              logged (mkLog LWarn "Insufficient permissions") w)
    end.
Proof.
  run_routes. destruct user as [u|]; [| reflexivity].
  destruct (JS.includes allowedRoles (jwt_role u)); reflexivity.
Qed.

Lemma includes_In (l : list string) (x : string) :
  JS.includes l x = true <-> In x l.
Proof.
  unfold JS.includes. rewrite bool_decide_eq_true. apply list_elem_of_In.
Qed.

End GateLemmas.




(** X23. Through the manual indexing route, a verified user whose role
    is admin, CEO or President stores the document of the request, as
    sent and whatever its tenant, under its id in the named index; any
    other request (no valid token, another role, no index name or no
    document) leaves the index as it was. *)
Theorem manual_index_effect (indexPrefix : string)
    (jwt_verify : string -> string -> option JWTPayload) (jwtSecret : string)
    (w : World) :
  (forall token payload indexName document,
     jwt_verify token jwtSecret = Some payload ->
     In (jwt_role payload) ["admin"; "CEO"; "President"] ->
     indexName <> "" ->
     outcome (SearchServiceApp.post_index indexPrefix jwt_verify jwtSecret
                (Some ("Bearer " +:+ token)) (Some indexName) (Some document))
       w = Ok (success "Document indexed successfully")
     /\ es (after (SearchServiceApp.post_index indexPrefix jwt_verify
                     jwtSecret (Some ("Bearer " +:+ token)) (Some indexName)
                     (Some document)) w)
        = <[(fullIndexName indexPrefix indexName, doc_id document)
            := document]> (es w))
  /\ (forall authorization indexName document,
        es (after (SearchServiceApp.post_index indexPrefix jwt_verify
                     jwtSecret authorization indexName document) w) = es w
        \/ exists token payload name d,
             authorization = Some ("Bearer " +:+ token)
             /\ jwt_verify token jwtSecret = Some payload
             /\ In (jwt_role payload) ["admin"; "CEO"; "President"]
             /\ indexName = Some name /\ name <> ""
             /\ document = Some d).
Proof.
  split.
  - intros token payload indexName document Hv Hrole Hname.
    apply (includes_In SearchServiceApp.admin_roles) in Hrole.
    assert (Hrun :
      SearchServiceApp.post_index indexPrefix jwt_verify jwtSecret
        (Some ("Bearer " +:+ token)) (Some indexName) (Some document) w
      = (Ok (success "Document indexed successfully"),
         mkWorld
           (<[(fullIndexName indexPrefix indexName, doc_id document)
              := document]> (es w))
           (mkLog LInfo "Manual document indexed"
            :: mkLog LDebug "Document indexed"
            :: mkLog LDebug "User authenticated" :: logs w)
           (channel w) (clock w))).
    { unfold SearchServiceApp.post_index, SearchServiceApp.authenticated.
      unfold SearchServiceApp.behind at 1. unfold bind at 1.
      rewrite authMiddleware_on_bearer, Hv.
      unfold SearchServiceApp.behind, bind. rewrite requireRole_result, Hrole.
      unfold SearchEndpoints.indexDocument.
      change SearchEndpoints.admins with SearchServiceApp.admin_roles.
      rewrite Hrole. destruct indexName as [|c name]; [congruence |].
      reflexivity. }
    unfold outcome, after. rewrite Hrun. split; reflexivity.
  - intros authorization indexName document.
    unfold after, SearchServiceApp.post_index, SearchServiceApp.authenticated.
    unfold SearchServiceApp.behind at 1. unfold bind at 1.
    destruct authorization as [h|]; [| left; reflexivity].
    rewrite authMiddleware_on_header.
    destruct (JS.truthy h) eqn:Ht; [| left; reflexivity].
    destruct (JS.startsWith h "Bearer ") eqn:Hb; [| left; reflexivity].
    apply bearer_header in Hb. cbn [andb].
    destruct (jwt_verify (JS.substring 7 h) jwtSecret) as [payload|] eqn:Hv;
      [| left; reflexivity].
    unfold SearchServiceApp.behind, bind. rewrite requireRole_result.
    destruct (JS.includes SearchServiceApp.admin_roles (jwt_role payload))
      eqn:Hrole; [| left; reflexivity].
    unfold SearchEndpoints.indexDocument.
    change SearchEndpoints.admins with SearchServiceApp.admin_roles.
    rewrite Hrole.
    destruct document as [d|]; [| destruct indexName; left; reflexivity].
    destruct indexName as [[|c name]|]; try (left; reflexivity).
    right. exists (JS.substring 7 h), payload, (String c name), d.
    repeat split; try congruence.
    apply (includes_In SearchServiceApp.admin_roles). exact Hrole.
Qed.

Lemma manual_index_effect_witness :
  es (after (SearchServiceApp.post_index "htma"
               (fun _ _ => Some (mkJWTPayload "u9" "ceo@example.org" "C"
                                   "CEO" "t1"))
               "secret" (Some "Bearer abc") (Some "work_items")
               (Some (workItemDocument Sample.launch_plan)))
        Sample.empty_world)
  = <[("htma_work_items", "wi1") := workItemDocument Sample.launch_plan]> ∅.
Proof.
  apply (proj1 (manual_index_effect "htma"
                  (fun _ _ => Some (mkJWTPayload "u9" "ceo@example.org" "C"
                                      "CEO" "t1"))
                  "secret" Sample.empty_world) "abc"
           (mkJWTPayload "u9" "ceo@example.org" "C" "CEO" "t1")
           "work_items" (workItemDocument Sample.launch_plan) eq_refl).
  - simpl. auto.
  - discriminate.
Defined.

(** X24. When the engine answers a search, the endpoint answers with one
    document per hit, in the engine's order and with the engine's scores,
    with the engine's total (whether the engine reports it as a number or
    as an object, and 0 when it reports none) and with the time that
    passed between the two clock readings; when the engine call raises,
    the service logs and rethrows the error and the endpoint answers 500
    with the fixed message [Search failed]. *)
Theorem search_endpoint_outcome (indexPrefix : string)
    (engine : list string -> SearchBody -> M SearchResponse) (now_ms : M Q)
    (user : JWTPayload) (body : SearchBodyInput) (searchQuery : SearchQuery)
    (startTime : Q) (w w1 : World) :
  SearchController.search (Some user) body = Searches searchQuery ->
  now_ms w = (Ok startTime, w1) ->
  (forall e w2,
     engine (getSearchIndices indexPrefix (q_filters searchQuery ≫= f_type))
       (buildSearchQuery searchQuery) w1 = (Err e, w2) ->
     outcome (ElasticsearchService.search indexPrefix engine now_ms
                searchQuery) w = Err e
     /\ SearchEndpoints.search indexPrefix engine now_ms (Some user) body w
        = (Ok (failure 500 true "Search failed"),
           logged (caught "Search failed")
             (logged (caught "Search failed") w2)))
  /\ (forall response w2 endTime w3,
        engine (getSearchIndices indexPrefix (q_filters searchQuery ≫= f_type))
          (buildSearchQuery searchQuery) w1 = (Ok response, w2) ->
        now_ms w2 = (Ok endTime, w3) ->
        exists result,
          outcome (SearchEndpoints.search indexPrefix engine now_ms
                     (Some user) body) w = Ok (success result)
          /\ map sd_document (res_documents result)
             = map hit_source (resp_hits response)
          /\ map sd_score (res_documents result)
             = map hit_score (resp_hits response)
          /\ res_total result = total_of (resp_total response)
          /\ res_executionTime result = (endTime - startTime)%Q).
Proof.
  intros Hs Hstart. split.
  - intros e w2 He. split.
    + unfold outcome, ElasticsearchService.search, try_catch, bind.
      rewrite Hstart, He. reflexivity.
    + unfold SearchEndpoints.search. rewrite Hs.
      unfold ElasticsearchService.search, try_catch, bind.
      rewrite Hstart, He. reflexivity.
  - intros response w2 endTime w3 Hr Hend.
    unfold outcome, SearchEndpoints.search. rewrite Hs.
    unfold ElasticsearchService.search, try_catch, bind.
    rewrite Hstart, Hr, Hend. simpl. eexists. split; [reflexivity |].
    simpl. rewrite !map_map. repeat split; reflexivity.
Qed.

Lemma search_endpoint_outcome_witness :
  SearchEndpoints.search "htma" (fun _ _ => throw NotFound) (ret 0%Q)
    (Some Sample.manager) (mkSearchBodyInput (Some "launch") None None None)
    Sample.empty_world
  = (Ok (failure 500 true "Search failed"),
     logged (caught "Search failed")
       (logged (caught "Search failed") Sample.empty_world)).
Proof.
  apply (proj1 (search_endpoint_outcome "htma" (fun _ _ => throw NotFound)
                  (ret 0%Q) Sample.manager
                  (mkSearchBodyInput (Some "launch") None None None)
                  Sample.launch_query 0%Q Sample.empty_world
                  Sample.empty_world eq_refl eq_refl)
           NotFound Sample.empty_world eq_refl).
Defined.

(* ===================================================================== *)
(** ** The indices and their mappings                                      *)
(* ===================================================================== *)

Section SetupLemmas.

Variable indexPrefix : string.

Lemma setupIndex_cluster (index : string * list (string * FieldMapping))
    (state : Cluster * list LogEntry) :
  fst (IndexSetup.setupIndex index state)
  = create_if_missing (fst index)
      (mkIndexBody IndexSetup.settings (snd index)) (fst state).
Proof.
  destruct state as [c log].
  unfold IndexSetup.setupIndex, create_if_missing, creatable,
    cluster.indices_exists, cluster.indices_create.
  change ((c, log).1) with c.
  destruct (cl_up c); simpl; [| reflexivity].
  destruct (bool_decide (is_Some (cl_indices c !! index.1))); simpl;
    [reflexivity |].
  destruct (bool_decide (index.1 ∈ cl_refused c)); reflexivity.
Qed.

Lemma setupIndices_cluster (state : Cluster * list LogEntry) :
  fst (IndexSetup.setupIndices indexPrefix state)
  = create_if_missing (indexPrefix +:+ "_templates")
      (mkIndexBody IndexSetup.settings IndexSetup.getTemplateMapping)
      (create_if_missing (indexPrefix +:+ "_users")
         (mkIndexBody IndexSetup.settings IndexSetup.getUserMapping)
         (create_if_missing (indexPrefix +:+ "_work_items")
            (mkIndexBody IndexSetup.settings IndexSetup.getWorkItemMapping)
            (fst state))).
Proof.
  unfold IndexSetup.setupIndices, IndexSetup.indices, fold_left.
  rewrite !setupIndex_cluster. reflexivity.
Qed.

Lemma create_if_missing_lookup (name : string) (body : IndexBody)
    (c : Cluster) (other : string) :
  cl_indices (create_if_missing name body c) !! other
  = match cl_indices c !! other with
    | Some b => Some b
    | None => if (String.eqb other name && creatable name c)%bool
              then Some body else None
    end.
Proof.
  unfold create_if_missing.
  destruct (creatable name c) eqn:Hc; simpl.
  - destruct (String.eqb_spec other name) as [-> | Hne]; simpl.
    + rewrite lookup_insert_eq. unfold creatable in Hc.
      destruct (cl_indices c !! name) as [b|] eqn:Hl; [| reflexivity].
      rewrite bool_decide_eq_true_2 in Hc by eauto.
      rewrite andb_false_r in Hc. discriminate Hc.
    + rewrite lookup_insert_ne by congruence.
      destruct (cl_indices c !! other); reflexivity.
  - rewrite andb_false_r. destruct (cl_indices c !! other); reflexivity.
Qed.

Lemma create_if_missing_keeps (name : string) (body : IndexBody)
    (c : Cluster) :
  cl_up (create_if_missing name body c) = cl_up c
  /\ cl_refused (create_if_missing name body c) = cl_refused c.
Proof.
  unfold create_if_missing. destruct (creatable name c); split; reflexivity.
Qed.

Lemma create_if_missing_done (name : string) (body : IndexBody)
    (c : Cluster) :
  creatable name c = false -> create_if_missing name body c = c.
Proof. unfold create_if_missing. intros ->. reflexivity. Qed.

Lemma creatable_after (name other : string) (body : IndexBody) (c : Cluster) :
  creatable name c = false ->
  creatable name (create_if_missing other body c) = false.
Proof.
  intros Hc. unfold creatable.
  destruct (create_if_missing_keeps other body c) as [-> ->].
  rewrite create_if_missing_lookup.
  unfold creatable in Hc.
  destruct (cl_up c); [| reflexivity].
  destruct (cl_indices c !! name) as [b|] eqn:Hl.
  - rewrite bool_decide_eq_true_2 by eauto. reflexivity.
  - rewrite (bool_decide_eq_false_2 (is_Some None)) in Hc
      by (intros [x Hx]; discriminate Hx).
    simpl in Hc. rewrite Hc. apply andb_false_r.
Qed.

Lemma creatable_done (name : string) (body : IndexBody) (c : Cluster) :
  creatable name (create_if_missing name body c) = false.
Proof.
  destruct (creatable name c) eqn:Hc.
  - unfold creatable. rewrite create_if_missing_lookup.
    rewrite Hc, String.eqb_refl.
    destruct (cl_indices c !! name);
      rewrite bool_decide_eq_true_2 by eauto;
      rewrite andb_false_r; reflexivity.
  - rewrite create_if_missing_done by exact Hc. exact Hc.
Qed.

End SetupLemmas.

(** X25. [setupIndices] creates, with the settings and the mapping of the
    service, each of the three indices that is missing and that the
    engine accepts, and nothing else: an index that exists keeps the body
    it has, a refusal for one index does not keep the later ones from
    being created, nothing is created when the cluster does not answer,
    and running it a second time changes nothing. [connect] raises, and
    sets up nothing, when the cluster does not answer, and otherwise
    succeeds with the indices that [setupIndices] leaves. *)
Theorem setup_indices_effect (indexPrefix : string) (c : Cluster)
    (log : list LogEntry) :
  (forall name body,
     cl_indices c !! name = Some body ->
     cl_indices (fst (IndexSetup.setupIndices indexPrefix (c, log))) !! name
     = Some body)
  /\ (forall index,
        In index (IndexSetup.indices indexPrefix) ->
        cl_indices c !! fst index = None ->
        cl_indices (fst (IndexSetup.setupIndices indexPrefix (c, log)))
          !! fst index
        = if (cl_up c && negb (bool_decide (fst index ∈ cl_refused c)))%bool
          then Some (mkIndexBody IndexSetup.settings (snd index))
          else None)
  /\ (forall name,
        ~ In name (map fst (IndexSetup.indices indexPrefix)) ->
        cl_indices (fst (IndexSetup.setupIndices indexPrefix (c, log))) !! name
        = cl_indices c !! name)
  /\ fst (IndexSetup.setupIndices indexPrefix
            (IndexSetup.setupIndices indexPrefix (c, log)))
     = fst (IndexSetup.setupIndices indexPrefix (c, log))
  /\ (cl_up c = false ->
      IndexSetup.connect indexPrefix (c, log)
      = (Raised Unavailable,
         (c, mkLog LError "Elasticsearch connection failed" :: log)))
  /\ (cl_up c = true ->
      fst (IndexSetup.connect indexPrefix (c, log)) = Answered tt
      /\ fst (snd (IndexSetup.connect indexPrefix (c, log)))
         = fst (IndexSetup.setupIndices indexPrefix (c, log))).
Proof.
  assert (Hwu : indexPrefix +:+ "_work_items" <> indexPrefix +:+ "_users")
    by (intros H; apply append_cancel in H; discriminate H).
  assert (Hwt : indexPrefix +:+ "_work_items" <> indexPrefix +:+ "_templates")
    by (intros H; apply append_cancel in H; discriminate H).
  assert (Hut : indexPrefix +:+ "_users" <> indexPrefix +:+ "_templates")
    by (intros H; apply append_cancel in H; discriminate H).
  split; [| split; [| split; [| split; [| split]]]].
  - intros name body Hl. rewrite setupIndices_cluster. simpl.
    rewrite !create_if_missing_lookup, Hl. reflexivity.
  - intros index Hin Hl. rewrite setupIndices_cluster. simpl.
    rewrite !create_if_missing_lookup.
    unfold creatable at 1 2 3.
    rewrite !(proj1 (create_if_missing_keeps _ _ _)).
    rewrite !(proj2 (create_if_missing_keeps _ _ _)).
    rewrite !create_if_missing_lookup.
    destruct Hin as [<- | [<- | [<- | []]]]; simpl in *; rewrite Hl;
      rewrite ?String.eqb_refl;
      repeat match goal with
             | |- context [String.eqb ?a ?b] =>
                 lazymatch a with
                 | b => fail
                 | _ => rewrite (proj2 (String.eqb_neq a b)) by congruence
                 end
             end; simpl;
      rewrite ?Hl;
      rewrite ?(bool_decide_eq_false_2 (is_Some None))
        by (intros [x Hx]; discriminate Hx);
      simpl;
      destruct (cl_up c); simpl; try reflexivity;
      destruct (bool_decide (_ ∈ cl_refused c)); reflexivity.
  - intros name Hnot. rewrite setupIndices_cluster. simpl.
    rewrite !create_if_missing_lookup.
    simpl in Hnot.
    rewrite !(proj2 (String.eqb_neq name _)) by (intros ->; tauto).
    simpl. destruct (cl_indices c !! name); reflexivity.
  - rewrite (setupIndices_cluster indexPrefix
               (IndexSetup.setupIndices indexPrefix (c, log))).
    rewrite setupIndices_cluster. simpl.
    rewrite (create_if_missing_done (indexPrefix +:+ "_work_items"))
      by (do 2 apply creatable_after; apply creatable_done).
    rewrite (create_if_missing_done (indexPrefix +:+ "_users"))
      by (apply creatable_after; apply creatable_done).
    rewrite (create_if_missing_done (indexPrefix +:+ "_templates"))
      by apply creatable_done.
    reflexivity.
  - intros Hdown. unfold IndexSetup.connect, cluster.health.
    rewrite Hdown. reflexivity.
  - intros Hup. unfold IndexSetup.connect, cluster.health.
    rewrite Hup. split; [reflexivity |].
    cbn [snd]. rewrite !setupIndices_cluster. reflexivity.
Qed.

Lemma setup_indices_effect_witness :
  cl_indices
    (fst (IndexSetup.setupIndices "htma"
            (mkCluster true ∅ {["htma_work_items"]}, [])))
    !! "htma_users"
  = Some (mkIndexBody IndexSetup.settings IndexSetup.getUserMapping).
Proof.
  pose proof (proj1 (proj2 (setup_indices_effect "htma"
                              (mkCluster true ∅ {["htma_work_items"]}) []))
                ("htma_users", IndexSetup.getUserMapping)) as H.
  cbn [fst snd cl_up cl_refused cl_indices] in H.
  rewrite H; [| right; left; reflexivity | apply lookup_empty].
  rewrite bool_decide_eq_false_2; [reflexivity |].
  intros Hin. apply elem_of_singleton in Hin. discriminate Hin.
Defined.

(** X26. The mappings agree with the queries: every exact-match clause
    that the compiler can put in a filter, and every aggregation it asks
    for, is on a field that the work-item mapping types as keyword; each
    of the three mappings types tenantId, type, tags and permissions as
    keyword and title and content as text, gives title the completion
    sub-field that the suggestions are read from, and names no analyzer
    other than those of the index settings and the built-in simple. *)
Theorem mappings_agree_with_queries :
  (forall query c field,
     In c (sb_filter (buildSearchQuery query)) ->
     exact_field c = Some field ->
     field_type IndexSetup.getWorkItemMapping field = Some "keyword")
  /\ (forall query name field,
        In (name, field) (sb_aggregations (buildSearchQuery query)) ->
        field_type IndexSetup.getWorkItemMapping field = Some "keyword")
  /\ (forall indexPrefix index,
        In index (IndexSetup.indices indexPrefix) ->
        (forall field,
           In field ["tenantId"; "type"; "tags"; "permissions"] ->
           field_type (snd index) field = Some "keyword")
        /\ field_type (snd index) "title" = Some "text"
        /\ field_type (snd index) "content" = Some "text"
        /\ subfield_type (snd index) "title" "suggest" = Some "completion"
        /\ (forall query tenantId,
              sg_field (ElasticsearchService.suggestBody query tenantId)
              = "title.suggest")
        /\ (forall analyzer,
              In analyzer (analyzers_named (snd index)) ->
              analyzer = "simple"
              \/ In analyzer
                   (map fst (analysis_analyzer IndexSetup.settings)))).
Proof.
  split; [| split].
  - intros query c field Hin Hfield. rewrite filter_clauses in Hin.
    destruct Hin as [<- | Hin];
      [injection Hfield as <-; reflexivity |].
    destruct (q_filters query) as [filters|]; [| destruct Hin].
    rewrite !in_app_iff in Hin.
    repeat (destruct Hin as [Hin | Hin];
            [unfold terms_filter in Hin;
             repeat match type of Hin with
                    | In _ match ?o with _ => _ end => destruct o
                    end; simpl in Hin; try contradiction;
             destruct Hin as [<- | []]; injection Hfield as <-; reflexivity |]).
    unfold date_filter in Hin.
    destruct (f_dateRange filters); simpl in Hin; [| destruct Hin].
    destruct Hin as [<- | []]. discriminate Hfield.
  - intros query name field. unfold buildSearchQuery.
    destruct (q_pagination query); simpl;
      intros [H | [H | [H | []]]]; injection H as _ <-; reflexivity.
  - intros indexPrefix index [<- | [<- | [<- | []]]]; simpl;
      (split; [intros field [<- | [<- | [<- | [<- | []]]]]; reflexivity |]);
      (split; [reflexivity |]); (split; [reflexivity |]);
      (split; [reflexivity |]); (split; [reflexivity |]);
      intros analyzer Hin; vm_compute in Hin;
      repeat (destruct Hin as [<- | Hin]; [simpl; auto |]);
      destruct Hin.
Qed.

Lemma mappings_agree_with_queries_witness :
  field_type IndexSetup.getWorkItemMapping "status" = Some "keyword".
Proof.
  apply (proj1 mappings_agree_with_queries
           (mkSearchQuery "" (Some (mkFilters None None (Some ["done"]) None
                                      None None None))
              None None "t1" "u1" "Manager")
           (terms "status" ["done"]) "status").
  - simpl. auto.
  - reflexivity.
Defined.

Lemma facet_filters_exact_witness :
  In (terms "status" ["done"])
    (sb_filter
       (buildSearchQuery
          (mkSearchQuery "" (Some (mkFilters None None (Some ["done"]) None
                                     None None None))
             None None "t1" "u1" "Manager"))).
Proof.
  apply (proj2 (facet_filters_exact
                  (mkSearchQuery "" (Some (mkFilters None None (Some ["done"])
                                             None None None None))
                     None None "t1" "u1" "Manager")
                  "status" ["done"])).
  split; [discriminate |].
  eexists. split; reflexivity.
Defined.

Lemma only_the_tenant_term_witness :
  "tenantId" = "tenantId" /\ "t1" = q_tenantId Sample.launch_query.
Proof.
  apply (proj1 (only_the_tenant_term Sample.launch_query) "tenantId" "t1").
  simpl. auto.
Defined.


